(** * Anvay: the browser client of the label-compliance checker

    A shallow embedding of the TypeScript sources

      - [src/services/api.ts]            ([checkCompliance]),
      - the Codespaces variant of it     (module [Codespaces] below),
      - [src/types]                      ([ComplianceResult], [APIResponse]),
      - [src/components/FileUpload.tsx]  ([handleFileChange], [handleDrop]),
      - [src/components/ComplianceResults.tsx]
                                         ([getScoreColor], [detectedFields], ...),

    followed by the properties proved about them.

    TypeScript's annotations are erased when the program runs, and the value
    that [response.json()] resolves to is typed [any]; so the response body is
    modelled as the JSON value it is, and the JavaScript operators applied to
    it ([||], [>=], property reads, [Array.prototype.filter]) are given their
    ECMAScript meaning on such values.  [async]/[await] and [try]/[catch] are
    modelled by completions: a computation either finishes normally with a
    value or throws.  Calls of [console.log] and [console.error] do not affect
    any returned value and are left out. *)

From Stdlib Require Import List String Ascii Bool ZArith NArith QArith Lia Lqa.
From Stdlib Require Import Qround DecimalString.
Import ListNotations.
Close Scope Q_scope.
Open Scope string_scope.

(** ** Completions: normal return or a thrown value *)

(** What a [catch] clause can tell about the value it caught: whether it is
    an instance of [Error] (then it has a [message]), or anything else. *)
Inductive Thrown : Type :=
| ErrorInstance (message : string)
| OtherValue.

Inductive Completion (A : Type) : Type :=
| Normal (a : A)
| Throw (e : Thrown).
Arguments Normal {A} a.
Arguments Throw {A} e.

Definition bind {A B : Type} (c : Completion A) (k : A -> Completion B)
  : Completion B :=
  match c with
  | Normal a => k a
  | Throw e => Throw e
  end.

Notation "x <- c ;; k" := (bind c (fun x => k))
  (at level 61, c at next level, right associativity).

(** [try { body } catch (error) { handler }] *)
Definition try_catch {A : Type} (body : Completion A)
  (handler : Thrown -> Completion A) : Completion A :=
  match body with
  | Normal a => Normal a
  | Throw e => handler e
  end.

(** ** JavaScript values that [JSON.parse] can produce *)

(** A JSON number denotes a finite binary64 value, or an infinity when the
    literal overflows; [JSON.parse] never yields [NaN].  Every finite binary64
    value is a rational and the comparisons below are exact on them, so finite
    numbers are carried as rationals.  [+0] and [-0], which no operation of
    this program tells apart, are both [Finite 0]. *)
Inductive JsonNumber : Type :=
| Finite (q : Q)
| Infinite (negative : bool).

(** The Number type: a JSON number, or [NaN] (which [ToNumber] can yield). *)
Inductive Number : Type :=
| NaN
| Num (x : JsonNumber).

#[warnings="-register-all"]
Inductive Json : Type :=
| JNull
| JBool (b : bool)
| JNumber (x : JsonNumber)
| JString (s : string)
| JArray (elements : list Json)
| JObject (properties : list (string * Json)).

(** The result of a property read is a value or [undefined]. *)
Abbreviation undefined := (@None Json).

(** Own-property lookup; a parsed object has each key once. *)
Fixpoint lookup (key : string) (properties : list (string * Json))
  : option Json :=
  match properties with
  | [] => undefined
  | (k, v) :: rest => if (k =? key)%string then Some v else lookup key rest
  end.

(** ** The language runtime

    Three things are fixed by the JavaScript engine and not by this program:
    how a string converts to a number ([StringToNumber]), how an array or an
    object converts to a number ([ToPrimitive] followed by [ToNumber], which
    throws a [TypeError] when neither [valueOf] nor [toString] is callable),
    and the text of the [TypeError]s the engine raises.  They are parameters
    of the model; every theorem holds for every engine. *)
Inductive TypeErrorSite : Type :=
| ReadOfNull (property : string)
| NotAFunction (property : string).

Record Engine : Type := {
  StringToNumber : string -> Number;
  ObjectToNumber : Json -> Completion Number;
  typeErrorMessage : TypeErrorSite -> string
}.

Definition TypeError (E : Engine) (site : TypeErrorSite) : Thrown :=
  ErrorInstance (typeErrorMessage E site).

Section Operators.

Variable E : Engine.

(** [base.property], for the property names this program reads ([score],
    [extracted_text], [fields], [status], [detected]), none of which is found
    on a built-in prototype: reading from [null] throws, an object gives its
    own property, every other value gives [undefined]. *)
Definition get (base : Json) (property : string) : Completion (option Json) :=
  match base with
  | JNull => Throw (TypeError E (ReadOfNull property))
  | JObject properties => Normal (lookup property properties)
  | _ => Normal undefined
  end.

(** ToBoolean *)
Definition ToBoolean (v : option Json) : bool :=
  match v with
  | None => false
  | Some JNull => false
  | Some (JBool b) => b
  | Some (JNumber (Finite q)) => negb (Qeq_bool q 0)
  | Some (JNumber (Infinite _)) => true
  | Some (JString s) => negb (s =? "")%string
  | Some (JArray _) => true
  | Some (JObject _) => true
  end.

(** [a || b]: [a] when it is truthy, else [b], which is evaluated only then. *)
Definition or_else (a : option Json) (b : Completion Json) : Completion Json :=
  match a with
  | Some v => if ToBoolean (Some v) then Normal v else b
  | None => b
  end.

(** ToNumber *)
Definition ToNumber (v : option Json) : Completion Number :=
  match v with
  | None => Normal NaN
  | Some JNull => Normal (Num (Finite 0))
  | Some (JBool b) => Normal (Num (Finite (if b then 1 else 0)))
  | Some (JNumber x) => Normal (Num x)
  | Some (JString s) => Normal (StringToNumber E s)
  | Some (JArray l) => ObjectToNumber E (JArray l)
  | Some (JObject p) => ObjectToNumber E (JObject p)
  end.

(** [n >= c] on Numbers, [c] finite: false when [n] is [NaN]. *)
Definition number_ge (n : Number) (c : Q) : bool :=
  match n with
  | NaN => false
  | Num (Finite q) => Qle_bool c q
  | Num (Infinite negative) => negb negative
  end.

(** [v >= c] for a numeric literal [c]: the left operand is converted with
    ToNumber. *)
Definition ge (v : option Json) (c : Q) : Completion bool :=
  n <- ToNumber v ;;
  Normal (number_ge n c).

End Operators.

(** ** [src/types]: the declared shapes

    [ComplianceField] objects stay JSON values: the program never builds one
    except in the literal default list, and reads them by property name.
    The fields of a [ComplianceResult] hold whatever the expressions that fill
    them evaluate to. *)
Record ComplianceResult : Type := {
  score : Json;
  extractedText : Json;
  fields : Json;
  status : Json
}.

(** [data?] and [error?] are optional properties. *)
Record APIResponse : Type := {
  success : bool;
  data : option ComplianceResult;
  error : option string
}.

(** ** The browser: files, requests, responses *)

Record File : Type := {
  name : string;
  size : N;
  type : string
}.

(** A [FormData] body: the entries appended to it. *)
Definition FormData : Type := list (string * File).

Record Request : Type := {
  url : string;
  method : string;
  body : FormData
}.

(** A [Response]: its [ok] flag and [status] code, and what awaiting
    [json()] or [text()] gives (a parsed value or string, or a rejection). *)
Record Response : Type := {
  ok : bool;
  statusCode : N;
  json : Completion Json;
  text : Completion string
}.

(** The host of the program: the engine, the build-time environment variable
    and the network seen through [fetch]. *)
Record Host : Type := {
  engine : Engine;
  VITE_REACT_APP_API_URL : option string;
  fetch : Request -> Completion Response
}.

(** The string a number takes inside a template literal, for a status code. *)
Definition number_to_string (n : N) : string :=
  NilZero.string_of_uint (N.to_uint n).

(** ** [src/services/api.ts] *)

(** The literal array of line 28-34. *)
Definition defaultField (fieldName icon : string) : Json :=
  JObject [("name", JString fieldName); ("detected", JBool false);
           ("icon", JString icon)].

Definition defaultFields : Json :=
  JArray [ defaultField "MRP" "rupee";
           defaultField "Net Quantity" "package";
           defaultField "Manufacturer" "building";
           defaultField "Country of Origin" "globe";
           defaultField "Manufacturing Date" "calendar" ].

Section Transform.

Variable E : Engine.

(** [data.score >= 60 ? 'pass' : data.score >= 40 ? 'partial' : 'fail'] *)
Definition statusFromScore (data : Json) : Completion Json :=
  s <- get E data "score" ;;
  pass <- ge E s (60 # 1) ;;
  if pass : bool then Normal (JString "pass")
  else
    s' <- get E data "score" ;;
    partial <- ge E s' (40 # 1) ;;
    if partial : bool then Normal (JString "partial")
    else Normal (JString "fail").

(** The object literal [complianceResult] of lines 25-36, its four property
    values evaluated in source order. *)
Definition complianceResult (data : Json) : Completion ComplianceResult :=
  score_ <- (s <- get E data "score" ;; or_else s (Normal (JNumber (Finite 0)))) ;;
  extractedText_ <-
    (t <- get E data "extracted_text" ;; or_else t (Normal (JString ""))) ;;
  fields_ <- (f <- get E data "fields" ;; or_else f (Normal defaultFields)) ;;
  status_ <- (st <- get E data "status" ;; or_else st (statusFromScore data)) ;;
  Normal {| score := score_; extractedText := extractedText_;
            fields := fields_; status := status_ |}.

(** The [catch] clause shared by both variants of [checkCompliance]. *)
Definition failure (caught : Thrown) : APIResponse :=
  {| success := false;
     data := None;
     error := Some (match caught with
                    | ErrorInstance message => message
                    | OtherValue => "An error occurred"
                    end) |}.

End Transform.

Definition checkComplianceRequest (API_BASE_URL : string) (file : File)
  : Request :=
  {| url := API_BASE_URL ++ "/check-compliance/";
     method := "POST";
     body := [("image", file)] |}.

Module Api.

(** [import.meta.env.VITE_REACT_APP_API_URL || 'http://localhost:8000/api'] *)
Definition API_BASE_URL (H : Host) : string :=
  match VITE_REACT_APP_API_URL H with
  | Some u => if (u =? "")%string then "http://localhost:8000/api" else u
  | None => "http://localhost:8000/api"
  end.

Definition checkCompliance (H : Host) (file : File)
  : Completion APIResponse :=
  try_catch
    (response <- fetch H (checkComplianceRequest (API_BASE_URL H) file) ;;
     if negb (ok response)
     then Throw (ErrorInstance
                   ("HTTP error! status: "
                      ++ number_to_string (statusCode response)))
     else
       data <- json response ;;
       complianceResult_ <- complianceResult (engine H) data ;;
       Normal {| success := true;
                 data := Some complianceResult_;
                 error := None |})
    (fun caught => Normal (failure caught)).

End Api.

(** The variant with the hardcoded Codespaces address: it reads the response
    text into the message of the error it throws for a response that is not
    ok. *)
Module Codespaces.

Definition API_BASE_URL : string :=
  "https://musical-acorn-v6vw59v9vjv3rpx-8000.app.github.dev/api".

Definition checkCompliance (H : Host) (file : File)
  : Completion APIResponse :=
  try_catch
    (response <- fetch H (checkComplianceRequest API_BASE_URL file) ;;
     if negb (ok response)
     then
       errorText <- text response ;;
       Throw (ErrorInstance
                ("HTTP error! status: "
                   ++ number_to_string (statusCode response)
                   ++ ", message: " ++ errorText))
     else
       data <- json response ;;
       complianceResult_ <- complianceResult (engine H) data ;;
       Normal {| success := true;
                 data := Some complianceResult_;
                 error := None |})
    (fun caught => Normal (failure caught)).

End Codespaces.

(** ** [src/components/FileUpload.tsx] *)

Module FileUpload.

(** What a handler does, in order: calls on the event and on the props. *)
Inductive Effect : Type :=
| preventDefault
| onFileSelect (file : File).

(** [event.target.files] of a change event and [event.dataTransfer.files]
    of a drop event: a list of files, or null. *)
Record ChangeEvent : Type := { target_files : option (list File) }.
Record DragEvent : Type := { dataTransfer_files : option (list File) }.

(** [files?.[0]] *)
Definition first (files : option (list File)) : option File :=
  match files with
  | Some (file :: _) => Some file
  | _ => None
  end.

(** [[...].includes(x)] on strings *)
Definition includes (l : list string) (x : string) : bool :=
  existsb (String.eqb x) l.

Definition acceptedTypes : list string :=
  ["image/jpeg"; "image/png"; "image/webp"].

Definition handleFileChange (event : ChangeEvent) : list Effect :=
  match first (target_files event) with
  | Some file =>
      if includes acceptedTypes (type file) then [onFileSelect file] else []
  | None => []
  end.

Definition handleDragOver (event : DragEvent) : list Effect :=
  [preventDefault].

Definition handleDrop (event : DragEvent) : list Effect :=
  preventDefault ::
  match first (dataTransfer_files event) with
  | Some file =>
      if includes acceptedTypes (type file) then [onFileSelect file] else []
  | None => []
  end.

End FileUpload.

(** ** [src/components/ComplianceResults.tsx] *)

Module ComplianceResults.

(** A rendered icon element: the component and its [className]. *)
Record Element : Type := { component : string; className : string }.

(** [Array.prototype.filter] with a callback that may throw. *)
Fixpoint filter (callback : Json -> Completion bool) (elements : list Json)
  : Completion (list Json) :=
  match elements with
  | [] => Normal []
  | x :: rest =>
      keep <- callback x ;;
      kept <- filter callback rest ;;
      Normal (if keep : bool then x :: kept else kept)
  end.

Section Component.

Variable E : Engine.

Definition getScoreColor (score : Json) : Completion string :=
  green <- ge E (Some score) (60 # 1) ;;
  if green : bool then Normal "text-green-600 bg-green-100"
  else
    yellow <- ge E (Some score) (40 # 1) ;;
    if yellow : bool then Normal "text-yellow-600 bg-yellow-100"
    else Normal "text-red-600 bg-red-100".

Definition getScoreBorderColor (score : Json) : Completion string :=
  green <- ge E (Some score) (60 # 1) ;;
  if green : bool then Normal "border-green-200"
  else
    yellow <- ge E (Some score) (40 # 1) ;;
    if yellow : bool then Normal "border-yellow-200"
    else Normal "border-red-200".

Definition getStatusIcon (score : Json) : Completion Element :=
  green <- ge E (Some score) (60 # 1) ;;
  if green : bool
  then Normal {| component := "CheckCircle";
                 className := "w-6 h-6 text-green-500" |}
  else
    yellow <- ge E (Some score) (40 # 1) ;;
    if yellow : bool
    then Normal {| component := "AlertCircle";
                   className := "w-6 h-6 text-yellow-500" |}
    else Normal {| component := "XCircle";
                   className := "w-6 h-6 text-red-500" |}.

(** [array.filter(callback)]: only an array has a [filter] method. *)
Definition call_filter (array : Json) (callback : Json -> Completion bool)
  : Completion (list Json) :=
  match array with
  | JArray elements => filter callback elements
  | JNull => Throw (TypeError E (ReadOfNull "filter"))
  | _ => Throw (TypeError E (NotAFunction "filter"))
  end.

(** [field => field.detected] and [field => !field.detected]; [filter]
    applies ToBoolean to what the callback returns. *)
Definition isDetected (field : Json) : Completion bool :=
  d <- get E field "detected" ;;
  Normal (ToBoolean d).

Definition isMissing (field : Json) : Completion bool :=
  d <- get E field "detected" ;;
  Normal (negb (ToBoolean d)).

Definition detectedFields (result : ComplianceResult)
  : Completion (list Json) :=
  call_filter (fields result) isDetected.

Definition missingFields (result : ComplianceResult)
  : Completion (list Json) :=
  call_filter (fields result) isMissing.

End Component.

(** The children of the status paragraph:
    [{result.status === 'pass' && 'Compliant'}] and its two siblings; a
    [false] child renders nothing. *)
Definition strictly_equals (v : Json) (literal : string) : bool :=
  match v with
  | JString s => (s =? literal)%string
  | _ => false
  end.

Definition statusText (result : ComplianceResult) : list string :=
  (if strictly_equals (status result) "pass" then ["Compliant"] else [])
  ++ (if strictly_equals (status result) "partial"
      then ["Partially Compliant"] else [])
  ++ (if strictly_equals (status result) "fail" then ["Non-Compliant"] else []).

(** [{result.extractedText || 'No text extracted'}] *)
Definition shownText (result : ComplianceResult) : Json :=
  match ToBoolean (Some (extractedText result)) with
  | true => extractedText result
  | false => JString "No text extracted"
  end.

(** What a fields card shows: the list when [length > 0], else a
    paragraph. *)
Inductive Card : Type :=
| Items (shown : list Json)
| Paragraph (words : string).

Definition detectedCard (detectedFields : list Json) : Card :=
  match detectedFields with
  | [] => Paragraph "No fields detected"
  | _ :: _ => Items detectedFields
  end.

Definition missingCard (missingFields : list Json) : Card :=
  match missingFields with
  | [] => Paragraph "All required fields detected"
  | _ :: _ => Items missingFields
  end.

(** [getFieldIcon]: [iconMap[iconName] || <Package .../>].  [iconMap] is an
    object literal, so a name it does not define is looked up on
    [Object.prototype]; [inherited] tells which names that prototype defines
    in the running engine (their values, functions and objects, are
    truthy). *)
Inductive Node : Type :=
| element (e : Element)
| inheritedMember (memberName : string).

Definition iconMap : list (string * Element) :=
  [ ("rupee", {| component := "IndianRupee"; className := "w-5 h-5" |});
    ("package", {| component := "Package"; className := "w-5 h-5" |});
    ("building", {| component := "Building"; className := "w-5 h-5" |});
    ("globe", {| component := "Globe"; className := "w-5 h-5" |});
    ("calendar", {| component := "Calendar"; className := "w-5 h-5" |}) ].

Fixpoint iconMap_own (iconName : string) (entries : list (string * Element))
  : option Element :=
  match entries with
  | [] => None
  | (k, e) :: rest =>
      if (k =? iconName)%string then Some e else iconMap_own iconName rest
  end.

Definition getFieldIcon (inherited : string -> bool) (iconName : string)
  : Node :=
  match iconMap_own iconName iconMap with
  | Some e => element e
  | None =>
      if inherited iconName then inheritedMember iconName
      else element {| component := "Package"; className := "w-5 h-5" |}
  end.

End ComplianceResults.

(** ** [src/components/ImagePreview.tsx] *)

Module ImagePreview.

(** The browser's table of object URLs: URLs are issued in sequence, never
    twice, and stay live until revoked. *)
Definition ObjectURL : Type := N.

Record URLStore : Type := {
  nextURL : ObjectURL;
  live : list (ObjectURL * File)
}.

Definition createObjectURL (file : File) (store : URLStore)
  : ObjectURL * URLStore :=
  (nextURL store,
   {| nextURL := N.succ (nextURL store);
      live := (nextURL store, file) :: live store |}).

(** Revoking a URL that is not live does nothing. *)
Definition revokeObjectURL (url : ObjectURL) (store : URLStore) : URLStore :=
  {| nextURL := nextURL store;
     live := List.filter (fun entry => negb (fst entry =? url)%N) (live store) |}.

(** A mounted component: its [imageUrl] state (the empty string before the
    first effect has run) and the URL its pending cleanup will revoke. *)
Record Mounted : Type := {
  imageUrl : option ObjectURL;
  cleanup : option ObjectURL
}.

(** The effect of lines 10-14: create a URL, store it in the state, and
    return the cleanup that revokes it. *)
Definition effect (file : File) (store : URLStore) : Mounted * URLStore :=
  let (url, store') := createObjectURL file store in
  ({| imageUrl := Some url; cleanup := Some url |}, store').

Definition runCleanup (m : Mounted) (store : URLStore) : URLStore :=
  match cleanup m with
  | Some url => revokeObjectURL url store
  | None => store
  end.

(** React runs the effect after mounting; when the dependency [file]
    changes it runs the previous cleanup and then the effect again; when the
    component unmounts it runs the last cleanup. *)
Definition mount (file : File) (store : URLStore) : Mounted * URLStore :=
  effect file store.

Definition update (file : File) (ms : Mounted * URLStore)
  : Mounted * URLStore :=
  effect file (runCleanup (fst ms) (snd ms)).

Definition unmount (ms : Mounted * URLStore) : URLStore :=
  runCleanup (fst ms) (snd ms).

(** The component while it shows [file] and then each file of [changes],
    every one of them a render with another [File] object as dependency. *)
Definition shown (file : File) (changes : list File) (store : URLStore)
  : Mounted * URLStore :=
  fold_left (fun ms file' => update file' ms) changes (mount file store).

End ImagePreview.

(** ** [src/App.tsx] *)

Module App.

(** ['upload' | 'preview' | 'processing' | 'results' | 'error'] *)
Inductive AppState : Type :=
| Upload
| Preview
| Processing
| Results
| Error.

(** [response.error || 'Failed to check compliance'] *)
Definition errorOrDefault (response : APIResponse) : string :=
  match error response with
  | Some e => if (e =? "")%string then "Failed to check compliance" else e
  | None => "Failed to check compliance"
  end.

(** The four [useState] cells.  A handler is modelled by the state it
    leaves behind: the setters it calls one after the other are applied
    together, no other event coming in between. *)
Record State : Type := {
  state : AppState;
  selectedFile : option File;
  result : option ComplianceResult;
  error : string
}.

Definition initial : State :=
  {| state := Upload; selectedFile := None; result := None; error := "" |}.

Definition handleFileSelect (file : File) (s : State) : State :=
  {| state := Preview; selectedFile := Some file;
     result := result s; error := "" |}.

Definition handleClearFile (s : State) : State :=
  {| state := Upload; selectedFile := None; result := None; error := "" |}.

Definition handleCheckAnother (s : State) : State :=
  {| state := Upload; selectedFile := None; result := None; error := "" |}.

(** [handleCheckCompliance] up to its [await]: the new state, and the file
    [checkCompliance] was called with, if it was called. *)
Definition handleCheckCompliance (s : State) : State * option File :=
  match selectedFile s with
  | None => (s, None)
  | Some file =>
      ({| state := Processing; selectedFile := selectedFile s;
          result := result s; error := "" |},
       Some file)
  end.

(** [handleCheckCompliance] after its [await], given what the call resolved
    to. *)
Definition handleCheckCompliance_resumed (response : APIResponse) (s : State)
  : State :=
  match success response, data response with
  | true, Some d =>
      {| state := Results; selectedFile := selectedFile s;
         result := Some d; error := error s |}
  | _, _ =>
      {| state := Error; selectedFile := selectedFile s;
         result := result s; error := errorOrDefault response |}
  end.

(** The props [App] passes to [FileUpload]: [onFileSelect] is
    [handleFileSelect], and [disabled] is [state === 'processing']. *)
Definition disabled (s : State) : bool :=
  match state s with
  | Processing => true
  | _ => false
  end.

Definition perform (s : State) (effect : FileUpload.Effect) : State :=
  match effect with
  | FileUpload.onFileSelect file => handleFileSelect file s
  | FileUpload.preventDefault => s
  end.

(** The running application: the React state, and the files of the calls of
    [checkCompliance] that have not settled yet. *)
Record Running : Type := {
  ui : State;
  awaiting : list File
}.

Definition started : Running := {| ui := initial; awaiting := [] |}.

(** What can happen next: the user acts on an element that is rendered and
    not disabled, or a pending call settles, the network then being [H]. *)
Inductive Event : Type :=
| FileChange (event : FileUpload.ChangeEvent)
| DragOver (event : FileUpload.DragEvent)
| Drop (event : FileUpload.DragEvent)
| ClearClick
| CheckClick
| CheckAnotherClick
| TryAgainClick
| Settle (n : nat) (H : Host).

Definition isSome {A : Type} (o : option A) : bool :=
  match o with
  | Some _ => true
  | None => false
  end.

(** Which elements the render of [App], [FileUpload] and
    [ComplianceResults] puts on the page, and which of them react:
    the drop zone and its file input exist while no file is selected, the
    input being disabled with [disabled]; the clear button exists while a
    file is selected and [!disabled]; the check button exists in the states
    preview and results and is disabled when
    [state === 'processing' || !selectedFile]; "Check Another Product" exists
    with the results card, that is when [state === 'results' && result];
    "Try Again" exists in the state error. *)
Definition enabled (r : Running) (e : Event) : bool :=
  let s := ui r in
  match e with
  | FileChange _ => negb (isSome (selectedFile s)) && negb (disabled s)
  | DragOver _ => negb (isSome (selectedFile s))
  | Drop _ => negb (isSome (selectedFile s))
  | ClearClick => isSome (selectedFile s) && negb (disabled s)
  | CheckClick =>
      match state s with
      | Preview | Results => isSome (selectedFile s)
      | _ => false
      end
  | CheckAnotherClick =>
      match state s with
      | Results => isSome (result s)
      | _ => false
      end
  | TryAgainClick =>
      match state s with
      | Error => true
      | _ => false
      end
  | Settle n _ => isSome (nth_error (awaiting r) n)
  end.

(** The list without its element at [n]. *)
Fixpoint drop_nth {A : Type} (n : nat) (l : list A) : list A :=
  match l, n with
  | [], _ => []
  | _ :: rest, O => rest
  | x :: rest, S n' => x :: drop_nth n' rest
  end.

Section Handlers.

(** The [checkCompliance] that [App] imports from [./services/api]. *)
Variable checkCompliance : Host -> File -> Completion APIResponse.

Definition fire (r : Running) (e : Event) : Running :=
  match e with
  | FileChange event =>
      {| ui := fold_left perform (FileUpload.handleFileChange event) (ui r);
         awaiting := awaiting r |}
  | DragOver event =>
      {| ui := fold_left perform (FileUpload.handleDragOver event) (ui r);
         awaiting := awaiting r |}
  | Drop event =>
      {| ui := fold_left perform (FileUpload.handleDrop event) (ui r);
         awaiting := awaiting r |}
  | ClearClick => {| ui := handleClearFile (ui r); awaiting := awaiting r |}
  | CheckClick =>
      match handleCheckCompliance (ui r) with
      | (s, Some file) => {| ui := s; awaiting := awaiting r ++ [file] |}
      | (s, None) => {| ui := s; awaiting := awaiting r |}
      end
  | CheckAnotherClick =>
      {| ui := handleCheckAnother (ui r); awaiting := awaiting r |}
  | TryAgainClick =>
      {| ui := handleCheckAnother (ui r); awaiting := awaiting r |}
  | Settle n H =>
      match nth_error (awaiting r) n with
      | Some file =>
          {| ui := match checkCompliance H file with
                   | Normal response =>
                       handleCheckCompliance_resumed response (ui r)
                   | Throw _ => ui r
                   end;
             awaiting := drop_nth n (awaiting r) |}
      | None => r
      end
  end.

(** The application after a sequence of events, each enabled when it
    happens. *)
Inductive reachable : Running -> Prop :=
| reachable_started : reachable started
| reachable_fire (r : Running) (e : Event) :
    reachable r -> enabled r e = true -> reachable (fire r e).

End Handlers.

End App.

(** ** Vocabulary of the properties *)

(** [score >= c] and [score < c] as the specification reads them, on the
    numbers a response can carry. *)
Definition at_least (x : JsonNumber) (c : Q) : Prop :=
  match x with
  | Finite q => (c <= q)%Q
  | Infinite negative => negative = false
  end.

Definition below (x : JsonNumber) (c : Q) : Prop :=
  match x with
  | Finite q => (q < c)%Q
  | Infinite negative => negative = true
  end.

(** The three-way classification the program applies to a Number. *)
Definition statusOfNumber (n : Number) : string :=
  if number_ge n (60 # 1) then "pass"
  else if number_ge n (40 # 1) then "partial"
  else "fail".

(** The own property of a value, [undefined] when it has none. *)
Definition own (base : Json) (property : string) : option Json :=
  match base with
  | JObject properties => lookup property properties
  | _ => undefined
  end.

(** [a || d] for a default [d] that is a literal. *)
Definition or_default (a : option Json) (d : Json) : Json :=
  match a with
  | Some v => if ToBoolean (Some v) then v else d
  | None => d
  end.

(** [x || 0] for a numeric [x]. *)
Definition or_zero (x : JsonNumber) : JsonNumber :=
  if ToBoolean (Some (JNumber x)) then x else Finite 0.

(** The response [checkCompliance] returns on its success path. *)
Definition succeeded (r : ComplianceResult) : APIResponse :=
  {| success := true; data := Some r; error := None |}.

(** The text a [catch] clause reports for a caught value. *)
Definition reported (caught : Thrown) : string :=
  match caught with
  | ErrorInstance message => message
  | OtherValue => "An error occurred"
  end.

(** A host whose engine is [E] and whose network answers every request with
    the same outcome. *)
Definition serving (E : Engine) (outcome : Completion Response) : Host :=
  {| engine := E;
     VITE_REACT_APP_API_URL := None;
     fetch := fun _ => outcome |}.

(** A response with status 200 whose body parses to [body]. *)
Definition okResponse (body : Json) (bodyText : string) : Response :=
  {| ok := true; statusCode := 200;
     json := Normal body; text := Normal bodyText |}.

(** [detected=true], read off a field object. *)
Definition detected_true (field : Json) : bool :=
  match own field "detected" with
  | Some (JBool true) => true
  | _ => false
  end.

(** Rounding to the nearest integer, halves upwards. *)
Definition round (q : Q) : Z := Qfloor (q + (1 # 2))%Q.

(** The score of section 4.5 of the specification, in its words: every
    configured field weighs [100 / fieldCount], and the score is the rounded
    sum of the weights of the fields whose [detected] is true.  The client
    has no such computation; this definition only states what the
    specification asks for. *)
Definition spec_score (configured : list Json) : Z :=
  let fieldCount := inject_Z (Z.of_nat (List.length configured)) in
  let weight := ((100 # 1) / fieldCount)%Q in
  round (fold_right
           (fun field sum =>
              if detected_true field then (weight + sum)%Q else sum)
           (0 # 1)%Q configured).

(** [Interleave l r t]: [t] is [l] and [r] merged, every element of [t] taken
    from exactly one of them and both keeping their order. *)
Inductive Interleave {A : Type} : list A -> list A -> list A -> Prop :=
| interleave_nil : Interleave [] [] []
| interleave_left (x : A) (l r t : list A) :
    Interleave l r t -> Interleave (x :: l) r (x :: t)
| interleave_right (x : A) (l r t : list A) :
    Interleave l r t -> Interleave l (x :: r) (x :: t).

(** The properties of an object value; a value that is no object has none. *)
Definition properties_of (v : Json) : list (string * Json) :=
  match v with
  | JObject properties => properties
  | _ => []
  end.

(** An object's properties without those named [key]. *)
Definition without (key : string) (properties : list (string * Json))
  : list (string * Json) :=
  List.filter (fun kv => negb (fst kv =? key)%string) properties.

(** The body that differs from [body] in listing, itself, the five fields as
    undetected. *)
Definition listing_fields_itself (body : Json) : Json :=
  JObject (("fields", defaultFields) :: without "fields" (properties_of body)).

(** [field.detected] as [filter] sees it. *)
Definition truthy_detected (field : Json) : bool :=
  ToBoolean (own field "detected").

(** ** Sample inputs *)

Definition labelPhoto : File :=
  {| name := "label.png"; size := 20480; type := "image/png" |}.

Definition manual : File :=
  {| name := "rules.pdf"; size := 4096; type := "application/pdf" |}.

(** [{"score":75}] *)
Definition body_score_75 : Json :=
  JObject [("score", JNumber (Finite (75 # 1)))].

(** [{"score":10,"status":"pass"}] *)
Definition body_score_10_pass : Json :=
  JObject [("score", JNumber (Finite (10 # 1))); ("status", JString "pass")].

(** A response with status 404 and a body that is not JSON. *)
Definition notFound : Response :=
  {| ok := false; statusCode := 404;
     json := Throw (ErrorInstance "Unexpected token N in JSON at position 0");
     text := Normal "Not Found" |}.

(** [{}] *)
Definition body_empty : Json := JObject [].

(** The results the client builds from these bodies. *)
Definition result_score_75 : ComplianceResult :=
  {| score := JNumber (Finite (75 # 1)); extractedText := JString "";
     fields := defaultFields; status := JString "pass" |}.

Definition result_score_10_pass : ComplianceResult :=
  {| score := JNumber (Finite (10 # 1)); extractedText := JString "";
     fields := defaultFields; status := JString "pass" |}.

Definition result_default : ComplianceResult :=
  {| score := JNumber (Finite 0); extractedText := JString "";
     fields := defaultFields; status := JString "fail" |}.

(** A response that reports, itself, the five fields as undetected:
    [{"score":0,"extracted_text":"","fields":[...],"status":"fail"}]. *)
Definition body_nothing_detected : Json :=
  JObject [("score", JNumber (Finite (0 # 1)));
           ("extracted_text", JString "");
           ("fields", defaultFields);
           ("status", JString "fail")].

(** A field the server found, and a result with found and missing fields. *)
Definition foundField (fieldName value icon : string) : Json :=
  JObject [("name", JString fieldName); ("detected", JBool true);
           ("value", JString value); ("icon", JString icon)].

Definition result_two_of_three : ComplianceResult :=
  {| score := JNumber (Finite (67 # 1));
     extractedText := JString "MRP Rs. 150 Mfd. by Acme Foods";
     fields := JArray [ foundField "MRP" "150" "rupee";
                        defaultField "Net Quantity" "package";
                        foundField "Manufacturer" "Acme Foods" "building" ];
     status := JString "pass" |}.

(** ** Vocabulary of the further properties *)

(** The three bands and what each of them shows. *)
Inductive Band : Type :=
| green
| yellow
| red.

Definition colourOf (b : Band) : string :=
  match b with
  | green => "text-green-600 bg-green-100"
  | yellow => "text-yellow-600 bg-yellow-100"
  | red => "text-red-600 bg-red-100"
  end.

Definition borderOf (b : Band) : string :=
  match b with
  | green => "border-green-200"
  | yellow => "border-yellow-200"
  | red => "border-red-200"
  end.

Definition iconOf (b : Band) : ComplianceResults.Element :=
  match b with
  | green => {| ComplianceResults.component := "CheckCircle";
                ComplianceResults.className := "w-6 h-6 text-green-500" |}
  | yellow => {| ComplianceResults.component := "AlertCircle";
                 ComplianceResults.className := "w-6 h-6 text-yellow-500" |}
  | red => {| ComplianceResults.component := "XCircle";
              ComplianceResults.className := "w-6 h-6 text-red-500" |}
  end.

Definition statusOf (b : Band) : string :=
  match b with
  | green => "pass"
  | yellow => "partial"
  | red => "fail"
  end.

Definition labelOf (b : Band) : string :=
  match b with
  | green => "Compliant"
  | yellow => "Partially Compliant"
  | red => "Non-Compliant"
  end.

(** The band of a Number, by the two comparisons the code makes. *)
Definition bandOf (n : Number) : Band :=
  if number_ge n (60 # 1) then green
  else if number_ge n (40 # 1) then yellow
  else red.

(** 'fail' below 'partial' below 'pass'. *)
Definition rank (b : Band) : nat :=
  match b with
  | red => 0
  | yellow => 1
  | green => 2
  end.

(** The rank of a status value: 'pass' above 'partial' above anything
    else. *)
Definition statusRank (v : Json) : nat :=
  if ComplianceResults.strictly_equals v "pass" then 2
  else if ComplianceResults.strictly_equals v "partial" then 1
  else 0.

(** The order of the numbers a response can carry. *)
Definition number_le (x y : JsonNumber) : Prop :=
  match x, y with
  | Finite p, Finite q => (p <= q)%Q
  | Infinite true, _ => True
  | _, Infinite false => True
  | _, _ => False
  end.

(** A result sent back as a response body, under the server's names. *)
Definition echo (r : ComplianceResult) : Json :=
  JObject [("score", score r); ("extracted_text", extractedText r);
           ("fields", fields r); ("status", status r)].

(** The MIME types the upload accepts. *)
Definition accepted (file : File) : Prop :=
  type file = "image/jpeg" \/ type file = "image/png" \/
  type file = "image/webp".

(** What holds of the running application at every moment. *)
Definition settled_from
  (checkCompliance : Host -> File -> Completion APIResponse)
  (file : File) (shown : ComplianceResult) : Prop :=
  exists (H : Host) (response : APIResponse),
    checkCompliance H file = Normal response /\
    success response = true /\
    data response = Some shown.

Definition consistent
  (checkCompliance : Host -> File -> Completion APIResponse)
  (r : App.Running) : Prop :=
  let s := App.ui r in
  (App.state s = App.Upload <-> App.selectedFile s = None) /\
  (forall file, App.selectedFile s = Some file -> accepted file) /\
  (match App.state s with
   | App.Processing =>
       exists file,
         App.selectedFile s = Some file /\
         (App.awaiting r = [file] \/ App.awaiting r = [])
   | _ => App.awaiting r = []
   end) /\
  (match App.state s with
   | App.Error => App.error s <> ""
   | _ => App.error s = ""
   end) /\
  (match App.state s with
   | App.Upload | App.Preview => App.result s = None
   | App.Results =>
       exists file shown,
         App.selectedFile s = Some file /\ App.result s = Some shown /\
         settled_from checkCompliance file shown
   | _ => True
   end).

(** An implementation of [checkCompliance] that never throws. *)
Definition never_throws
  (checkCompliance : Host -> File -> Completion APIResponse) : Prop :=
  forall (H : Host) (file : File),
  exists response, checkCompliance H file = Normal response.

(** The application after a photo was chosen, after the check was started,
    and after the call settled with the network being [H]. *)
Definition previewing : App.Running :=
  App.fire Api.checkCompliance App.started
    (App.FileChange {| FileUpload.target_files := Some [labelPhoto] |}).

Definition checking : App.Running :=
  App.fire Api.checkCompliance previewing App.CheckClick.

Definition settled (H : Host) : App.Running :=
  App.fire Api.checkCompliance checking (App.Settle 0 H).

(** A table of object URLs in which every live URL has been issued. *)
Definition issued (store : ImagePreview.URLStore) : Prop :=
  Forall (fun entry => (fst entry < ImagePreview.nextURL store)%N)
         (ImagePreview.live store).

(** What holds of a mounted component showing [file], [before] being the
    URLs that were live before it was mounted: its state and its pending
    cleanup name the same URL, which is live and stands for [file], and it
    is the only URL added to [before]. *)
Definition showing (before : list (ImagePreview.ObjectURL * File))
  (file : File) (ms : ImagePreview.Mounted * ImagePreview.URLStore) : Prop :=
  exists url : ImagePreview.ObjectURL,
    ImagePreview.imageUrl (fst ms) = Some url /\
    ImagePreview.cleanup (fst ms) = Some url /\
    ImagePreview.live (snd ms) = (url, file) :: before /\
    Forall (fun entry => (fst entry < url)%N) before /\
    (url < ImagePreview.nextURL (snd ms))%N.

(** ** Facts about the operators *)

Lemma number_ge_at_least (x : JsonNumber) (c : Q) :
  number_ge (Num x) c = true <-> at_least x c.
Proof.
  destruct x as [q | [ | ]]; simpl.
  - apply Qle_bool_iff.
  - split; discriminate.
  - split; reflexivity.
Qed.

Lemma number_ge_below (x : JsonNumber) (c : Q) :
  number_ge (Num x) c = false <-> below x c.
Proof.
  destruct x as [q | [ | ]]; simpl.
  - rewrite <- not_true_iff_false, Qle_bool_iff. split.
    + apply Qnot_le_lt.
    + apply Qlt_not_le.
  - split; reflexivity.
  - split; discriminate.
Qed.

Lemma at_least_not_below (x : JsonNumber) (c : Q) :
  at_least x c -> below x c -> False.
Proof.
  intros Hge Hlt.
  apply number_ge_at_least in Hge. apply number_ge_below in Hlt.
  congruence.
Qed.

Lemma at_least_weaken (x : JsonNumber) (c d : Q) :
  (d <= c)%Q -> at_least x c -> at_least x d.
Proof.
  destruct x as [q | b]; simpl; intros Hdc Hx.
  - now apply Qle_trans with c.
  - exact Hx.
Qed.

(** [x || 0] compares like [x]. *)
Lemma number_ge_or_zero (x : JsonNumber) (c : Q) :
  number_ge (Num (or_zero x)) c = number_ge (Num x) c.
Proof.
  unfold or_zero. destruct x as [q | b]; simpl; [ | reflexivity].
  destruct (Qeq_bool q 0) eqn:Hz; simpl; [ | reflexivity].
  apply Qeq_bool_iff in Hz.
  apply eq_true_iff_eq. rewrite !Qle_bool_iff. now rewrite Hz.
Qed.

(** Reading from anything but null gives the own property; reading from null
    throws. *)
Lemma get_own (E : Engine) (base : Json) (property : string) :
  base <> JNull -> get E base property = Normal (own base property).
Proof. destruct base; simpl; congruence. Qed.

Lemma get_Normal (E : Engine) (base : Json) (p : string) (v : option Json) :
  get E base p = Normal v -> base <> JNull /\ v = own base p.
Proof. destruct base; simpl; intros [= <-]; split; congruence. Qed.

(** [a || literal] never throws. *)
Lemma or_else_Normal (a : option Json) (d : Json) :
  or_else a (Normal d) = Normal (or_default a d).
Proof.
  destruct a as [v | ]; cbn [or_else or_default]; [ | reflexivity].
  destruct (ToBoolean (Some v)); reflexivity.
Qed.

(** The object literal, for a body other than null. *)
Lemma complianceResult_not_null (E : Engine) (body : Json) :
  body <> JNull ->
  complianceResult E body =
    status_ <- or_else (own body "status") (statusFromScore E body) ;;
    Normal {| score := or_default (own body "score") (JNumber (Finite 0));
              extractedText :=
                or_default (own body "extracted_text") (JString "");
              fields := or_default (own body "fields") defaultFields;
              status := status_ |}.
Proof.
  intros Hn. unfold complianceResult.
  rewrite !(get_own E body) by exact Hn.
  cbn [bind]. rewrite !or_else_Normal. reflexivity.
Qed.

Lemma complianceResult_null (E : Engine) :
  complianceResult E JNull = Throw (TypeError E (ReadOfNull "score")).
Proof. reflexivity. Qed.

(** The status derived from the score is the classification of its numeric
    value, when the conversion of the score to a number does not throw. *)
Lemma statusFromScore_not_null (E : Engine) (body : Json) :
  body <> JNull ->
  statusFromScore E body =
    n <- ToNumber E (own body "score") ;;
    Normal (JString (statusOfNumber n)).
Proof.
  intros Hn. unfold statusFromScore, ge, statusOfNumber.
  rewrite !(get_own E body) by exact Hn. cbn [bind].
  destruct (ToNumber E (own body "score")) as [n | e]; cbn [bind];
    [ | reflexivity].
  destruct (number_ge n (60 # 1)); [reflexivity | ].
  destruct (number_ge n (40 # 1)); reflexivity.
Qed.

(** On the path where the response is ok and its body parses,
    [checkCompliance] returns what the object literal evaluates to. *)
Lemma Api_checkCompliance_ok (H : Host) (file : File) (response : Response)
  (body : Json) :
  fetch H (checkComplianceRequest (Api.API_BASE_URL H) file) = Normal response ->
  ok response = true ->
  json response = Normal body ->
  Api.checkCompliance H file =
    match complianceResult (engine H) body with
    | Normal r => Normal (succeeded r)
    | Throw caught => Normal (failure caught)
    end.
Proof.
  intros Hf Hok Hj. unfold Api.checkCompliance.
  rewrite Hf. simpl. rewrite Hok, Hj. simpl.
  destruct (complianceResult (engine H) body); reflexivity.
Qed.

Lemma Codespaces_checkCompliance_ok (H : Host) (file : File)
  (response : Response) (body : Json) :
  fetch H (checkComplianceRequest Codespaces.API_BASE_URL file)
    = Normal response ->
  ok response = true ->
  json response = Normal body ->
  Codespaces.checkCompliance H file =
    match complianceResult (engine H) body with
    | Normal r => Normal (succeeded r)
    | Throw caught => Normal (failure caught)
    end.
Proof.
  intros Hf Hok Hj. unfold Codespaces.checkCompliance.
  rewrite Hf. simpl. rewrite Hok, Hj. simpl.
  destruct (complianceResult (engine H) body); reflexivity.
Qed.

(** A success is the normal completion of the object literal. *)
Lemma Api_checkCompliance_succeeded (H : Host) (file : File)
  (response : Response) (body : Json) (r : ComplianceResult) :
  fetch H (checkComplianceRequest (Api.API_BASE_URL H) file) = Normal response ->
  ok response = true ->
  json response = Normal body ->
  Api.checkCompliance H file = Normal (succeeded r) ->
  complianceResult (engine H) body = Normal r.
Proof.
  intros Hf Hok Hj. rewrite (Api_checkCompliance_ok H file response body Hf Hok Hj).
  destruct (complianceResult (engine H) body) as [r' | e]; intros [= Hr].
  now subst.
Qed.

(** ** The status and colour bands *)

(** [a || b] is [b] when [a] is falsy. *)
Lemma or_else_falsy (a : option Json) (b : Completion Json) :
  ToBoolean a = false -> or_else a b = b.
Proof.
  destruct a as [v | ]; cbn [or_else]; [ | reflexivity].
  now intros ->.
Qed.

(** The result for a response whose score is a number and which has no
    truthy status. *)
Lemma complianceResult_number_no_status (E : Engine) (body : Json)
  (x : JsonNumber) (st : option Json) :
  get E body "score" = Normal (Some (JNumber x)) ->
  get E body "status" = Normal st ->
  ToBoolean st = false ->
  exists r,
    complianceResult E body = Normal r /\
    score r = JNumber (or_zero x) /\
    status r = JString (statusOfNumber (Num x)).
Proof.
  intros Hs Hst Hfalsy.
  apply get_Normal in Hs as [Hn Hs]. apply get_Normal in Hst as [_ Hst].
  rewrite (complianceResult_not_null E body Hn).
  rewrite (statusFromScore_not_null E body Hn).
  rewrite <- Hs, <- Hst. rewrite (or_else_falsy st) by exact Hfalsy.
  cbn [ToNumber bind].
  eexists. split; [reflexivity | ]. cbn [score status]. split; [ | reflexivity].
  unfold or_default, or_zero.
  destruct (ToBoolean (Some (JNumber x))); reflexivity.
Qed.

(** The colour and the icon of a numeric score. *)
Lemma colour_of_number (E : Engine) (x : JsonNumber) :
  ComplianceResults.getScoreColor E (JNumber x)
  = Normal (if number_ge (Num x) (60 # 1) then "text-green-600 bg-green-100"
            else if number_ge (Num x) (40 # 1)
                 then "text-yellow-600 bg-yellow-100"
                 else "text-red-600 bg-red-100") /\
  ComplianceResults.getStatusIcon E (JNumber x)
  = Normal (if number_ge (Num x) (60 # 1)
            then {| ComplianceResults.component := "CheckCircle";
                    ComplianceResults.className := "w-6 h-6 text-green-500" |}
            else if number_ge (Num x) (40 # 1)
                 then {| ComplianceResults.component := "AlertCircle";
                         ComplianceResults.className :=
                           "w-6 h-6 text-yellow-500" |}
                 else {| ComplianceResults.component := "XCircle";
                         ComplianceResults.className :=
                           "w-6 h-6 text-red-500" |}).
Proof.
  unfold ComplianceResults.getScoreColor, ComplianceResults.getStatusIcon, ge.
  cbn [ToNumber bind].
  destruct (number_ge (Num x) (60 # 1)); [split; reflexivity | ].
  destruct (number_ge (Num x) (40 # 1)); split; reflexivity.
Qed.

(** C1. For every numeric score, when the response carries no status (none
    at all, or a falsy one such as null, which [||] treats alike), the
    status that [checkCompliance] derives is 'pass' exactly when score >= 60,
    'partial' exactly when 40 <= score < 60, and 'fail' exactly when
    score < 40; [getScoreColor] and [getStatusIcon] of ComplianceResults,
    applied to that score or to the score of the result (which is
    [score || 0]), choose green, yellow and red in the same three bands. *)
Theorem status_and_colour_bands :
  forall (H : Host) (file : File) (response : Response) (body : Json)
         (x : JsonNumber) (st : option Json),
    fetch H (checkComplianceRequest (Api.API_BASE_URL H) file)
      = Normal response ->
    ok response = true ->
    json response = Normal body ->
    get (engine H) body "score" = Normal (Some (JNumber x)) ->
    get (engine H) body "status" = Normal st ->
    ToBoolean st = false ->
    exists r,
      Api.checkCompliance H file = Normal (succeeded r) /\
      score r = JNumber (or_zero x) /\
      (status r = JString "pass" <-> at_least x (60 # 1)) /\
      (status r = JString "partial"
         <-> at_least x (40 # 1) /\ below x (60 # 1)) /\
      (status r = JString "fail" <-> below x (40 # 1)) /\
      forall shown : Json,
        shown = JNumber x \/ shown = score r ->
        (ComplianceResults.getScoreColor (engine H) shown
           = Normal "text-green-600 bg-green-100" <-> at_least x (60 # 1)) /\
        (ComplianceResults.getScoreColor (engine H) shown
           = Normal "text-yellow-600 bg-yellow-100"
           <-> at_least x (40 # 1) /\ below x (60 # 1)) /\
        (ComplianceResults.getScoreColor (engine H) shown
           = Normal "text-red-600 bg-red-100" <-> below x (40 # 1)) /\
        (ComplianceResults.getStatusIcon (engine H) shown
           = Normal {| ComplianceResults.component := "CheckCircle";
                       ComplianceResults.className :=
                         "w-6 h-6 text-green-500" |}
           <-> at_least x (60 # 1)) /\
        (ComplianceResults.getStatusIcon (engine H) shown
           = Normal {| ComplianceResults.component := "AlertCircle";
                       ComplianceResults.className :=
                         "w-6 h-6 text-yellow-500" |}
           <-> at_least x (40 # 1) /\ below x (60 # 1)) /\
        (ComplianceResults.getStatusIcon (engine H) shown
           = Normal {| ComplianceResults.component := "XCircle";
                       ComplianceResults.className := "w-6 h-6 text-red-500" |}
           <-> below x (40 # 1)).
Proof.
  intros H file response body x st Hf Hok Hj Hs Hst Hfalsy.
  destruct (complianceResult_number_no_status _ _ _ _ Hs Hst Hfalsy)
    as (r & Hr & Hscore & Hstatus).
  exists r. split.
  { rewrite (Api_checkCompliance_ok H file response body Hf Hok Hj).
    now rewrite Hr. }
  split; [exact Hscore | ].
  assert (H64 : at_least x (60 # 1) -> at_least x (40 # 1)).
  { apply at_least_weaken. discriminate. }
  pose proof (number_ge_at_least x (60 # 1)) as T60.
  pose proof (number_ge_below x (60 # 1)) as F60.
  pose proof (number_ge_at_least x (40 # 1)) as T40.
  pose proof (number_ge_below x (40 # 1)) as F40.
  assert (Hshown : forall shown, shown = JNumber x \/ shown = score r ->
            ComplianceResults.getScoreColor (engine H) shown
            = ComplianceResults.getScoreColor (engine H) (JNumber x) /\
            ComplianceResults.getStatusIcon (engine H) shown
            = ComplianceResults.getStatusIcon (engine H) (JNumber x)).
  { intros shown [-> | ->]; [split; reflexivity | ].
    rewrite Hscore.
    destruct (colour_of_number (engine H) (or_zero x)) as [-> ->].
    destruct (colour_of_number (engine H) x) as [-> ->].
    now rewrite !number_ge_or_zero. }
  rewrite Hstatus. unfold statusOfNumber.
  repeat match goal with |- _ /\ _ => split end;
    try (intros shown Hs'; destruct (Hshown shown Hs') as [-> ->];
         destruct (colour_of_number (engine H) x) as [-> ->];
         repeat match goal with |- _ /\ _ => split end);
    destruct (number_ge (Num x) (60 # 1)) eqn:G60;
    destruct (number_ge (Num x) (40 # 1)) eqn:G40;
    split; intros; try discriminate; try tauto;
    try (exfalso;
         first [ apply (at_least_not_below x (60 # 1)); tauto
               | apply (at_least_not_below x (40 # 1)); tauto ]).
Qed.

(** A response [{"score":75}]: whatever the engine, the result passes and is
    shown in green. *)
Lemma status_and_colour_bands_witness :
  at_least (Finite (75 # 1)) (60 # 1) /\
  forall (E : Engine) (bodyText : string),
  exists r,
    Api.checkCompliance
      (serving E (Normal (okResponse body_score_75 bodyText))) labelPhoto
      = Normal (succeeded r) /\
    status r = JString "pass" /\
    ComplianceResults.getScoreColor E (score r)
      = Normal "text-green-600 bg-green-100".
Proof.
  assert (H75 : at_least (Finite (75 # 1)) (60 # 1)).
  { simpl. unfold Qle. simpl. lia. }
  split; [exact H75 | ]. intros E bodyText.
  destruct (status_and_colour_bands
              (serving E (Normal (okResponse body_score_75 bodyText)))
              labelPhoto (okResponse body_score_75 bodyText)
              body_score_75 (Finite (75 # 1)) undefined
              eq_refl eq_refl eq_refl eq_refl eq_refl eq_refl)
    as (r & Hr & _ & Hpass & _ & _ & Hshown).
  exists r. split; [exact Hr | ]. split.
  - apply Hpass. exact H75.
  - apply (Hshown (score r) (or_intror eq_refl)). exact H75.
Defined.

(** ** Where the status and the score of a result come from *)

(** The result of a successful call, in terms of the body's own properties. *)
Lemma succeeded_result (H : Host) (file : File) (response : Response)
  (body : Json) (r : ComplianceResult) :
  fetch H (checkComplianceRequest (Api.API_BASE_URL H) file) = Normal response ->
  ok response = true ->
  json response = Normal body ->
  Api.checkCompliance H file = Normal (succeeded r) ->
  body <> JNull /\
  or_else (own body "status") (statusFromScore (engine H) body)
    = Normal (status r) /\
  score r = or_default (own body "score") (JNumber (Finite 0)) /\
  extractedText r = or_default (own body "extracted_text") (JString "") /\
  fields r = or_default (own body "fields") defaultFields.
Proof.
  intros Hf Hok Hj Hr.
  pose proof (Api_checkCompliance_succeeded H file response body r Hf Hok Hj Hr)
    as Hc.
  assert (Hn : body <> JNull).
  { intros ->. rewrite complianceResult_null in Hc. discriminate. }
  split; [exact Hn | ].
  rewrite (complianceResult_not_null _ body Hn) in Hc.
  destruct (or_else (own body "status") (statusFromScore (engine H) body))
    as [st | e]; cbn [bind] in Hc; [ | discriminate].
  injection Hc as <-. cbn [score extractedText fields status]. auto.
Qed.

(** C2, counterexample. The response [{"score":10,"status":"pass"}] yields a
    result whose status is 'pass', although its score, 10, is below 40 and
    the thresholds classify it as 'fail'. *)
Lemma server_status_overrides_score :
  (forall (E : Engine) (bodyText : string) (file : File),
      Api.checkCompliance
        (serving E (Normal (okResponse body_score_10_pass bodyText)))
        file
      = Normal (succeeded result_score_10_pass)) /\
  below (Finite (10 # 1)) (40 # 1) /\
  statusOfNumber (Num (Finite (10 # 1))) = "fail".
Proof.
  split; [ | split].
  - intros E bodyText file. reflexivity.
  - simpl. unfold Qlt. simpl. lia.
  - reflexivity.
Qed.

(** C2, as amended. For every ComplianceResult produced by checkCompliance,
    the status field is the status value of the response when that value is
    truthy; only when the response has no truthy status is it derived from
    the response's score by the fixed thresholds: 'pass' when the score is
    at least 60, 'partial' when it is at least 40, 'fail' otherwise. *)
Theorem status_is_response_status_or_score_band :
  forall (H : Host) (file : File) (response : Response) (body : Json)
         (r : ComplianceResult),
    fetch H (checkComplianceRequest (Api.API_BASE_URL H) file)
      = Normal response ->
    ok response = true ->
    json response = Normal body ->
    Api.checkCompliance H file = Normal (succeeded r) ->
    if ToBoolean (own body "status")
    then own body "status" = Some (status r)
    else exists n : Number,
        ToNumber (engine H) (own body "score") = Normal n /\
        status r = JString (statusOfNumber n).
Proof.
  intros H file response body r Hf Hok Hj Hr.
  destruct (succeeded_result H file response body r Hf Hok Hj Hr)
    as (Hn & Hst & _).
  rewrite (statusFromScore_not_null _ body Hn) in Hst.
  destruct (own body "status") as [v | ] eqn:Hv; cbn [or_else] in Hst.
  - destruct (ToBoolean (Some v)).
    + now injection Hst as ->.
    + destruct (ToNumber (engine H) (own body "score")) as [n | e];
        cbn [bind] in Hst; [ | discriminate].
      injection Hst as <-. now exists n.
  - cbn [ToBoolean].
    destruct (ToNumber (engine H) (own body "score")) as [n | e];
      cbn [bind] in Hst; [ | discriminate].
    injection Hst as <-. now exists n.
Qed.

(** The response [{"score":10,"status":"pass"}] has a truthy status, which
    the result carries. *)
Lemma status_is_response_status_or_score_band_witness :
  ToBoolean (own body_score_10_pass "status") = true /\
  forall (E : Engine) (bodyText : string) (file : File),
    Api.checkCompliance
      (serving E (Normal (okResponse body_score_10_pass bodyText))) file
    = Normal (succeeded result_score_10_pass) /\
    own body_score_10_pass "status" = Some (status result_score_10_pass).
Proof.
  split; [reflexivity | ]. intros E bodyText file.
  split; [reflexivity | ].
  exact (status_is_response_status_or_score_band
           (serving E
              (Normal (okResponse body_score_10_pass bodyText)))
           file (okResponse body_score_10_pass bodyText)
           body_score_10_pass result_score_10_pass
           eq_refl eq_refl eq_refl eq_refl).
Defined.

(** C3, counterexample. The response [{"score":75}] yields a result whose
    fields are the five defaults, all with detected=false, and whose score is
    75, where the weighting of section 4.5 gives those fields the score 0. *)
Lemma score_not_computed_from_fields :
  (forall (E : Engine) (bodyText : string) (file : File),
      Api.checkCompliance
        (serving E (Normal (okResponse body_score_75 bodyText))) file
      = Normal (succeeded result_score_75)) /\
  (exists configured : list Json,
      defaultFields = JArray configured /\
      forallb (fun field => negb (detected_true field)) configured = true /\
      spec_score configured = 0%Z).
Proof.
  split.
  - intros E bodyText file. reflexivity.
  - eexists. split; [reflexivity | ]. split; reflexivity.
Qed.

(** C3, as amended. For every ComplianceResult produced by checkCompliance,
    the score field is taken from the response and not computed from the
    fields: it is the response's score when that value is truthy and 0
    otherwise, so two responses with the same score give the same result
    score whatever their fields; in particular a response that carries no
    score gives the score 0. *)
Theorem score_is_response_score_or_zero :
  forall (H : Host) (file : File) (response : Response) (body : Json)
         (r : ComplianceResult),
    fetch H (checkComplianceRequest (Api.API_BASE_URL H) file)
      = Normal response ->
    ok response = true ->
    json response = Normal body ->
    Api.checkCompliance H file = Normal (succeeded r) ->
    score r = or_default (own body "score") (JNumber (Finite 0)) /\
    (own body "score" = undefined -> score r = JNumber (Finite 0)) /\
    (forall (body' : Json) (r' : ComplianceResult),
        complianceResult (engine H) body' = Normal r' ->
        own body' "score" = own body "score" ->
        score r' = score r).
Proof.
  intros H file response body r Hf Hok Hj Hr.
  destruct (succeeded_result H file response body r Hf Hok Hj Hr)
    as (Hn & _ & Hscore & _).
  split; [exact Hscore | ]. split.
  - intros Hu. now rewrite Hscore, Hu.
  - intros body' r' Hc' Hsame.
    assert (Hn' : body' <> JNull).
    { intros ->. rewrite complianceResult_null in Hc'. discriminate. }
    rewrite (complianceResult_not_null _ body' Hn') in Hc'.
    destruct (or_else (own body' "status")
                (statusFromScore (engine H) body')) as [st | e];
      cbn [bind] in Hc'; [ | discriminate].
    injection Hc' as <-. cbn [score]. now rewrite Hscore, Hsame.
Qed.

(** The response [{"score":75}]: the result's score is 75. *)
Lemma score_is_response_score_or_zero_witness :
  own body_score_75 "score" = Some (JNumber (Finite (75 # 1))) /\
  forall (E : Engine) (bodyText : string) (file : File),
    Api.checkCompliance
      (serving E (Normal (okResponse body_score_75 bodyText))) file
    = Normal (succeeded result_score_75) /\
    score result_score_75
    = or_default (own body_score_75 "score") (JNumber (Finite 0)).
Proof.
  split; [reflexivity | ]. intros E bodyText file.
  split; [reflexivity | ].
  exact (proj1
           (score_is_response_score_or_zero
              (serving E (Normal (okResponse body_score_75 bodyText)))
              file (okResponse body_score_75 bodyText) body_score_75
              result_score_75
              eq_refl eq_refl eq_refl eq_refl)).
Defined.

(** ** Failures *)

Lemma failure_reported (caught : Thrown) :
  failure caught
  = {| success := false; data := None; error := Some (reported caught) |}.
Proof. reflexivity. Qed.

Lemma reported_empty (caught : Thrown) :
  reported caught = "" <-> caught = ErrorInstance "".
Proof.
  destruct caught as [message | ]; simpl; split; intros Heq.
  - now subst.
  - now injection Heq.
  - discriminate.
  - discriminate.
Qed.

Lemma http_error_message_not_empty (code : N) :
  "HTTP error! status: " ++ number_to_string code <> "".
Proof. discriminate. Qed.

(** C4, counterexample. When [fetch] rejects with an Error whose message is
    the empty string, or [response.json()] does, the call reports a failure
    whose error message is empty. *)
Lemma empty_message_is_passed_on :
  (forall (E : Engine) (file : File),
      Api.checkCompliance (serving E (Throw (ErrorInstance ""))) file
      = Normal {| success := false; data := None; error := Some "" |}) /\
  (forall (E : Engine) (file : File),
      Api.checkCompliance
        (serving E (Normal {| ok := true; statusCode := 200;
                              json := Throw (ErrorInstance "");
                              text := Normal "" |})) file
      = Normal {| success := false; data := None; error := Some "" |}).
Proof. split; intros E file; reflexivity. Qed.

(** C4, as amended. Whenever the HTTP response is not ok, or the fetch or
    the JSON parsing throws, checkCompliance returns an APIResponse with
    success=false, no data field and an error message: for a response that is
    not ok the text "HTTP error! status: " followed by the status code, which
    is never empty; for a thrown Error its own message, which is empty only
    when that message is; for any other thrown value "An error occurred".
    The failure is never turned into a success result. *)
Theorem failures_are_reported :
  forall (H : Host) (file : File),
    let request := checkComplianceRequest (Api.API_BASE_URL H) file in
    (forall caught : Thrown,
        fetch H request = Throw caught ->
        Api.checkCompliance H file
        = Normal {| success := false; data := None;
                    error := Some (reported caught) |}) /\
    (forall response : Response,
        fetch H request = Normal response ->
        ok response = false ->
        Api.checkCompliance H file
        = Normal {| success := false; data := None;
                    error := Some ("HTTP error! status: "
                                     ++ number_to_string (statusCode response)) |}
        /\ "HTTP error! status: " ++ number_to_string (statusCode response)
           <> "") /\
    (forall (response : Response) (caught : Thrown),
        fetch H request = Normal response ->
        ok response = true ->
        json response = Throw caught ->
        Api.checkCompliance H file
        = Normal {| success := false; data := None;
                    error := Some (reported caught) |}) /\
    (forall caught : Thrown,
        (reported caught = "" <-> caught = ErrorInstance "") /\
        (caught = OtherValue -> reported caught = "An error occurred")).
Proof.
  intros H file request. subst request.
  split; [ | split; [ | split]].
  - intros caught Hf. unfold Api.checkCompliance. now rewrite Hf.
  - intros response Hf Hok. split.
    + unfold Api.checkCompliance. rewrite Hf. cbn [bind]. now rewrite Hok.
    + apply http_error_message_not_empty.
  - intros response caught Hf Hok Hj. unfold Api.checkCompliance.
    rewrite Hf. cbn [bind]. rewrite Hok, Hj. reflexivity.
  - intros caught. split.
    + apply reported_empty.
    + now intros ->.
Qed.

(** A response with status 404: the failure names the status. *)
Lemma failures_are_reported_witness :
  ok notFound = false /\
  forall (E : Engine) (file : File),
    Api.checkCompliance (serving E (Normal notFound)) file
    = Normal {| success := false; data := None;
                error := Some "HTTP error! status: 404" |}.
Proof.
  split; [reflexivity | ]. intros E file.
  exact (proj1
           (proj1 (proj2 (failures_are_reported (serving E (Normal notFound))
                            file))
              notFound eq_refl eq_refl)).
Defined.

(** ** The default result *)

(** C5, counterexample. The body null parses, and it carries none of score,
    extracted_text, fields and status; yet reading its first property throws,
    and checkCompliance returns success=false with the engine's TypeError
    message and no ComplianceResult at all. *)
Lemma null_body_gives_no_default_result :
  (forall (E : Engine) (bodyText : string) (file : File),
      Api.checkCompliance (serving E (Normal (okResponse JNull bodyText))) file
      = Normal {| success := false; data := None;
                  error := Some (typeErrorMessage E (ReadOfNull "score")) |}) /\
  own JNull "score" = undefined /\
  own JNull "extracted_text" = undefined /\
  own JNull "fields" = undefined /\
  own JNull "status" = undefined.
Proof.
  split; [ | repeat split].
  intros E bodyText file. reflexivity.
Qed.

(** C5, as amended. When the response is ok and its parsed body is not null
    and carries none of score, extracted_text, fields and status,
    checkCompliance returns success=true with a ComplianceResult whose
    extractedText is the empty string, whose score is 0, whose status is
    'fail' and whose fields are the five configured fields MRP, Net
    Quantity, Manufacturer, Country of Origin and Manufacturing Date, once
    each and in that order, every one with detected=false and no value. *)
Theorem body_without_properties_gives_default_result :
  forall (H : Host) (file : File) (response : Response) (body : Json),
    fetch H (checkComplianceRequest (Api.API_BASE_URL H) file)
      = Normal response ->
    ok response = true ->
    json response = Normal body ->
    body <> JNull ->
    own body "score" = undefined ->
    own body "extracted_text" = undefined ->
    own body "fields" = undefined ->
    own body "status" = undefined ->
    Api.checkCompliance H file
    = Normal {| success := true;
                data := Some {| score := JNumber (Finite 0);
                                extractedText := JString "";
                                fields := defaultFields;
                                status := JString "fail" |};
                error := None |} /\
    exists configured : list Json,
      defaultFields = JArray configured /\
      map (fun field => own field "name") configured
      = [Some (JString "MRP"); Some (JString "Net Quantity");
         Some (JString "Manufacturer"); Some (JString "Country of Origin");
         Some (JString "Manufacturing Date")] /\
      Forall (fun field => own field "detected" = Some (JBool false) /\
                           own field "value" = undefined) configured.
Proof.
  intros H file response body Hf Hok Hj Hn Hs Ht Hfl Hst.
  split.
  - rewrite (Api_checkCompliance_ok H file response body Hf Hok Hj).
    rewrite (complianceResult_not_null _ body Hn).
    rewrite (statusFromScore_not_null _ body Hn).
    rewrite Hs, Ht, Hfl, Hst. reflexivity.
  - eexists. split; [reflexivity | ]. split; [reflexivity | ].
    repeat constructor.
Qed.

(** The body [{}], and a body that is no object: the array [[]]. *)
Lemma body_without_properties_gives_default_result_witness :
  body_empty <> JNull /\
  own body_empty "score" = undefined /\
  forall (E : Engine) (bodyText : string) (file : File),
    Api.checkCompliance (serving E (Normal (okResponse body_empty bodyText)))
      file
    = Normal (succeeded result_default) /\
    Api.checkCompliance (serving E (Normal (okResponse (JArray []) bodyText)))
      file
    = Normal (succeeded result_default).
Proof.
  split; [discriminate | ]. split; [reflexivity | ].
  intros E bodyText file. split.
  - exact (proj1
             (body_without_properties_gives_default_result
                (serving E (Normal (okResponse body_empty bodyText))) file
                (okResponse body_empty bodyText) body_empty
                eq_refl eq_refl eq_refl
                ltac:(discriminate) eq_refl eq_refl eq_refl eq_refl)).
  - exact (proj1
             (body_without_properties_gives_default_result
                (serving E (Normal (okResponse (JArray []) bodyText))) file
                (okResponse (JArray []) bodyText) (JArray [])
                eq_refl eq_refl eq_refl
                ltac:(discriminate) eq_refl eq_refl eq_refl eq_refl)).
Defined.

(** A body that parses to null carries nothing either, but reading a
    property of it throws: the call ends in the failure response. *)
Example null_body_is_a_failure (E : Engine) (bodyText : string) (file : File) :
  Api.checkCompliance (serving E (Normal (okResponse JNull bodyText))) file
  = Normal {| success := false; data := None;
              error := Some (typeErrorMessage E (ReadOfNull "score")) |}.
Proof. reflexivity. Qed.

(** ** Totality *)

(** C8. checkCompliance is total: for every file and every outcome of the
    network call it completes normally with an APIResponse, never by
    throwing, and that value has success=true exactly when it has a data
    field. *)
Theorem checkCompliance_total :
  forall (H : Host) (file : File),
  exists r : APIResponse,
    Api.checkCompliance H file = Normal r /\
    (success r = true <-> exists d, data r = Some d).
Proof.
  intros H file. unfold Api.checkCompliance.
  destruct (fetch H (checkComplianceRequest (Api.API_BASE_URL H) file))
    as [response | caught]; cbn [bind try_catch].
  - destruct (ok response); cbn [negb].
    + destruct (json response) as [body | caught]; cbn [bind try_catch].
      * destruct (complianceResult (engine H) body) as [r | caught];
          cbn [bind try_catch]; eexists; (split; [reflexivity | ]); simpl.
        -- split; eauto.
        -- split; [discriminate | intros [d Hd]; discriminate].
      * eexists; split; [reflexivity | ]; simpl.
        split; [discriminate | intros [d Hd]; discriminate].
    + eexists; split; [reflexivity | ]; simpl.
      split; [discriminate | intros [d Hd]; discriminate].
  - eexists; split; [reflexivity | ]; simpl.
    split; [discriminate | intros [d Hd]; discriminate].
Qed.

(** ** The two variants *)

(** C9. The two implementations of checkCompliance agree on the success
    path: when both requests get the same response, it is ok and its body
    parses, they return the same value, the success built from the same
    ComplianceResult.  Whatever the common outcome of the network call, they
    agree on success and on data, and they return the same value except
    when the response is not ok, where only the error text differs. *)
Theorem variants_agree :
  forall (H : Host) (file : File) (outcome : Completion Response),
    fetch H (checkComplianceRequest (Api.API_BASE_URL H) file) = outcome ->
    fetch H (checkComplianceRequest Codespaces.API_BASE_URL file) = outcome ->
    exists a c : APIResponse,
      Api.checkCompliance H file = Normal a /\
      Codespaces.checkCompliance H file = Normal c /\
      success a = success c /\
      data a = data c /\
      (forall response : Response,
          outcome = Normal response -> ok response = true ->
          a = c /\
          forall (body : Json) (r : ComplianceResult),
            json response = Normal body ->
            complianceResult (engine H) body = Normal r ->
            a = succeeded r) /\
      (forall caught : Thrown, outcome = Throw caught -> a = c).
Proof.
  intros H file outcome Ha Hc.
  unfold Api.checkCompliance, Codespaces.checkCompliance.
  rewrite Ha, Hc.
  destruct outcome as [response | caught]; cbn [bind try_catch].
  - destruct (ok response) eqn:Hok; cbn [negb].
    + destruct (json response) as [body | caught] eqn:Hj;
        cbn [bind try_catch].
      * destruct (complianceResult (engine H) body) as [r | caught] eqn:Hr;
          cbn [bind try_catch]; do 2 eexists;
          repeat (split; [reflexivity | ]); (split; [ | discriminate]);
          intros response' Hresp _; (split; [reflexivity | ]);
          intros body' r' Hj' Hr'; injection Hresp as <-;
          rewrite Hj in Hj'; injection Hj' as <-;
          unfold succeeded; congruence.
      * do 2 eexists. repeat (split; [reflexivity | ]).
        split; [ | discriminate].
        intros response' Hresp _. split; [reflexivity | ].
        intros body' r' Hj'. injection Hresp as <-. congruence.
    + destruct (text response) as [errorText | caught];
        cbn [bind try_catch]; do 2 eexists;
        repeat (split; [reflexivity | ]); (split; [ | discriminate]);
        intros response' Hresp Hok'; injection Hresp as <-; congruence.
  - do 2 eexists. repeat (split; [reflexivity | ]).
    split; [discriminate | ]. intros caught' _. reflexivity.
Qed.

(** Both variants on the response [{"score":75}]. *)
Lemma variants_agree_witness :
  ok (okResponse body_score_75 "") = true /\
  forall (E : Engine) (bodyText : string) (file : File),
    Api.checkCompliance
      (serving E (Normal (okResponse body_score_75 bodyText))) file
    = Normal (succeeded result_score_75) /\
    Codespaces.checkCompliance
      (serving E (Normal (okResponse body_score_75 bodyText))) file
    = Normal (succeeded result_score_75).
Proof.
  split; [reflexivity | ]. intros E bodyText file.
  destruct (variants_agree
              (serving E (Normal (okResponse body_score_75 bodyText))) file
              (Normal (okResponse body_score_75 bodyText)) eq_refl eq_refl)
    as (a & c & Ha & Hc & _ & _ & Hok & _).
  destruct (Hok _ eq_refl eq_refl) as [Hac Hr].
  rewrite Hc, Ha, <- Hac.
  rewrite (Hr body_score_75 result_score_75 eq_refl eq_refl).
  split; reflexivity.
Defined.

(** ** File selection *)

Lemma includes_acceptedTypes (t : string) :
  FileUpload.includes FileUpload.acceptedTypes t = true <->
  t = "image/jpeg" \/ t = "image/png" \/ t = "image/webp".
Proof.
  unfold FileUpload.includes, FileUpload.acceptedTypes. cbn [existsb].
  rewrite !orb_true_iff, !String.eqb_eq. intuition discriminate.
Qed.

Lemma handleFileChange_calls (event : FileUpload.ChangeEvent) (file : File) :
  In (FileUpload.onFileSelect file) (FileUpload.handleFileChange event) <->
  FileUpload.first (FileUpload.target_files event) = Some file /\
  FileUpload.includes FileUpload.acceptedTypes (type file) = true.
Proof.
  unfold FileUpload.handleFileChange.
  destruct (FileUpload.first (FileUpload.target_files event)) as [f | ].
  - destruct (FileUpload.includes FileUpload.acceptedTypes (type f)) eqn:Hi;
      cbn [In]; split.
    + intros [[= ->] | []]. auto.
    + intros [[= ->] _]. auto.
    + intros [].
    + intros [[= ->] Hi']. congruence.
  - simpl. split; [intros [] | intros [[=] _]].
Qed.

Lemma handleDrop_calls (event : FileUpload.DragEvent) (file : File) :
  In (FileUpload.onFileSelect file) (FileUpload.handleDrop event) <->
  FileUpload.first (FileUpload.dataTransfer_files event) = Some file /\
  FileUpload.includes FileUpload.acceptedTypes (type file) = true.
Proof.
  unfold FileUpload.handleDrop.
  destruct (FileUpload.first (FileUpload.dataTransfer_files event)) as [f | ].
  - destruct (FileUpload.includes FileUpload.acceptedTypes (type f)) eqn:Hi;
      cbn [In]; split.
    + intros [[=] | [[= ->] | []]]. auto.
    + intros [[= ->] _]. auto.
    + intros [[=] | []].
    + intros [[= ->] Hi']. congruence.
  - simpl. split; [intros [[=] | []] | intros [[=] _]].
Qed.

(** C6. For every file offered to the FileUpload component, through the
    file input or by drag and drop, onFileSelect is called with it only when
    its declared MIME type is image/jpeg, image/png or image/webp; a file of
    any other type never reaches the callback. *)
Theorem only_accepted_types_are_selected :
  forall (change : FileUpload.ChangeEvent) (drop : FileUpload.DragEvent)
         (file : File),
    In (FileUpload.onFileSelect file) (FileUpload.handleFileChange change) \/
    In (FileUpload.onFileSelect file) (FileUpload.handleDrop drop) ->
    type file = "image/jpeg" \/ type file = "image/png" \/
    type file = "image/webp".
Proof.
  intros change drop file [Hin | Hin].
  - apply handleFileChange_calls in Hin as [_ Hi].
    now apply includes_acceptedTypes.
  - apply handleDrop_calls in Hin as [_ Hi].
    now apply includes_acceptedTypes.
Qed.

(** A PNG photo chosen in the file input is selected. *)
Lemma only_accepted_types_are_selected_witness :
  In (FileUpload.onFileSelect labelPhoto)
     (FileUpload.handleFileChange
        {| FileUpload.target_files := Some [labelPhoto] |}) /\
  (type labelPhoto = "image/jpeg" \/ type labelPhoto = "image/png" \/
   type labelPhoto = "image/webp").
Proof.
  assert (Hin : In (FileUpload.onFileSelect labelPhoto)
                   (FileUpload.handleFileChange
                      {| FileUpload.target_files := Some [labelPhoto] |})).
  { simpl. left. reflexivity. }
  split; [exact Hin | ].
  exact (only_accepted_types_are_selected
           {| FileUpload.target_files := Some [labelPhoto] |}
           {| FileUpload.dataTransfer_files := None |}
           labelPhoto (or_introl Hin)).
Defined.

(** A PDF is not selected, whichever way it is offered. *)
Example pdf_is_not_selected :
  FileUpload.handleFileChange {| FileUpload.target_files := Some [manual] |}
  = [] /\
  FileUpload.handleDrop {| FileUpload.dataTransfer_files := Some [manual] |}
  = [FileUpload.preventDefault].
Proof. split; reflexivity. Qed.

(** ** Provenance of a result *)

Lemma lookup_without (key other : string) (properties : list (string * Json)) :
  other <> key ->
  lookup other (without key properties) = lookup other properties.
Proof.
  intros Hne. induction properties as [ | [k v] rest IH]; [reflexivity | ].
  cbn [without List.filter fst lookup].
  destruct (String.eqb_spec k key) as [-> | Hk]; cbn [negb].
  - fold (without key rest). rewrite IH.
    destruct (String.eqb_spec key other) as [-> | _]; [now elim Hne | reflexivity].
  - fold (without key rest). cbn [lookup]. now rewrite IH.
Qed.

Lemma own_listing_fields_itself (body : Json) (property : string) :
  property <> "fields" ->
  own (listing_fields_itself body) property = own body property.
Proof.
  intros Hne. unfold listing_fields_itself. cbn [own lookup].
  destruct (String.eqb_spec "fields" property) as [<- | _]; [now elim Hne | ].
  rewrite (lookup_without "fields" property) by exact Hne.
  now destruct body.
Qed.

Lemma or_default_falsy (a : option Json) (d : Json) :
  ToBoolean a = false -> or_default a d = d.
Proof.
  destruct a as [v | ]; cbn [or_default]; [ | reflexivity].
  now intros ->.
Qed.

(** A body without usable fields and the body that lists the default fields
    itself give the same result. *)
Lemma complianceResult_listing_fields_itself (E : Engine) (body : Json) :
  body <> JNull ->
  ToBoolean (own body "fields") = false ->
  complianceResult E (listing_fields_itself body) = complianceResult E body.
Proof.
  intros Hn Hfalsy.
  assert (Hn' : listing_fields_itself body <> JNull) by discriminate.
  rewrite (complianceResult_not_null E _ Hn').
  rewrite (complianceResult_not_null E _ Hn).
  rewrite (statusFromScore_not_null E _ Hn').
  rewrite (statusFromScore_not_null E _ Hn).
  rewrite !own_listing_fields_itself by discriminate.
  rewrite (or_default_falsy (own body "fields")) by exact Hfalsy.
  reflexivity.
Qed.

(** C7, counterexample. The empty response [{}], for which the client falls
    back on its default field list, and a response in which the server
    itself reports the five fields as undetected with score 0 and status
    'fail' are delivered to the caller as one and the same ComplianceResult:
    nothing in it tells the fallback from the server's determination. *)
Lemma fallback_result_has_no_marker :
  (forall (E : Engine) (bodyText : string) (file : File),
      Api.checkCompliance (serving E (Normal (okResponse body_empty bodyText)))
        file
      = Normal (succeeded result_default)) /\
  (forall (E : Engine) (bodyText : string) (file : File),
      Api.checkCompliance
        (serving E (Normal (okResponse body_nothing_detected bodyText))) file
      = Normal (succeeded result_default)) /\
  own body_empty "fields" = undefined /\
  own body_nothing_detected "fields" = Some defaultFields.
Proof.
  split; [ | split; [ | split]].
  - intros E bodyText file. reflexivity.
  - intros E bodyText file. reflexivity.
  - reflexivity.
  - reflexivity.
Qed.

(** C7, as amended. A ComplianceResult delivered to the caller consists of
    score, extractedText, fields and status and of nothing else; it carries
    no marker of provenance.  A result built from the default field set,
    because the response had no usable fields, is equal to the result built
    from the response that differs only in listing those five undetected
    fields itself. *)
Theorem fallback_is_indistinguishable :
  forall (H : Host) (file : File) (response : Response) (body : Json)
         (r : ComplianceResult),
    fetch H (checkComplianceRequest (Api.API_BASE_URL H) file)
      = Normal response ->
    ok response = true ->
    json response = Normal body ->
    Api.checkCompliance H file = Normal (succeeded r) ->
    ToBoolean (own body "fields") = false ->
    (forall r' : ComplianceResult,
        score r' = score r -> extractedText r' = extractedText r ->
        fields r' = fields r -> status r' = status r -> r' = r) /\
    fields r = defaultFields /\
    own (listing_fields_itself body) "fields" = Some defaultFields /\
    forall (bodyText : string) (file' : File),
      Api.checkCompliance
        (serving (engine H)
           (Normal (okResponse (listing_fields_itself body) bodyText))) file'
      = Normal (succeeded r).
Proof.
  intros H file response body r Hf Hok Hj Hr Hfalsy.
  destruct (succeeded_result H file response body r Hf Hok Hj Hr)
    as (Hn & _ & _ & _ & Hfields).
  pose proof (Api_checkCompliance_succeeded H file response body r Hf Hok Hj Hr)
    as Hc.
  split; [ | split; [ | split]].
  - intros [s' t' f' st'] Hs' Ht' Hf' Hst'. destruct r as [s t f0 st].
    cbn in *. congruence.
  - rewrite Hfields. now apply or_default_falsy.
  - reflexivity.
  - intros bodyText file'.
    rewrite (Api_checkCompliance_ok
               (serving (engine H)
                  (Normal (okResponse (listing_fields_itself body) bodyText)))
               file' (okResponse (listing_fields_itself body) bodyText)
               (listing_fields_itself body) eq_refl eq_refl eq_refl).
    cbn [engine serving].
    rewrite (complianceResult_listing_fields_itself _ body Hn Hfalsy).
    now rewrite Hc.
Qed.

(** The empty response and the response that lists the default fields. *)
Lemma fallback_is_indistinguishable_witness :
  ToBoolean (own body_empty "fields") = false /\
  forall (E : Engine) (bodyText : string) (file : File),
    Api.checkCompliance
      (serving E (Normal (okResponse body_empty bodyText))) file
    = Normal (succeeded result_default) /\
    Api.checkCompliance
      (serving E
         (Normal (okResponse (listing_fields_itself body_empty) bodyText)))
      file
    = Normal (succeeded result_default).
Proof.
  split; [reflexivity | ]. intros E bodyText file.
  split; [reflexivity | ].
  exact (proj2 (proj2 (proj2
           (fallback_is_indistinguishable
              (serving E (Normal (okResponse body_empty bodyText))) file
              (okResponse body_empty bodyText) body_empty result_default
              eq_refl eq_refl eq_refl eq_refl eq_refl)))
           bodyText file).
Defined.

(** ** Detected and missing fields *)

Section Interleaving.

Context {A : Type}.

Lemma Interleave_length (l r t : list A) :
  Interleave l r t -> List.length l + List.length r = List.length t.
Proof.
  induction 1 as [ | x l r t _ IH | x l r t _ IH]; simpl; lia.
Qed.

Lemma Interleave_In (l r t : list A) (x : A) :
  Interleave l r t -> (In x t <-> In x l \/ In x r).
Proof.
  induction 1 as [ | y l r t _ IH | y l r t _ IH]; simpl; tauto.
Qed.

(** Filtering by a test and by its negation splits a list. *)
Lemma Interleave_filter (p : A -> bool) (t : list A) :
  Interleave (List.filter p t) (List.filter (fun x => negb (p x)) t) t.
Proof.
  induction t as [ | x t IH]; simpl.
  - constructor.
  - destruct (p x); simpl; now constructor.
Qed.

End Interleaving.

(** When the callback is a test that may throw, a [filter] that completes
    has kept the elements that pass the test. *)
Lemma filter_Normal (callback : Json -> Completion bool) (p : Json -> bool) :
  (forall x b, callback x = Normal b -> b = p x) ->
  forall elements kept,
    ComplianceResults.filter callback elements = Normal kept ->
    kept = List.filter p elements.
Proof.
  intros Hcb. induction elements as [ | x rest IH]; intros kept Hk.
  - now injection Hk as <-.
  - cbn [ComplianceResults.filter] in Hk.
    destruct (callback x) as [b | e] eqn:Hx; cbn [bind] in Hk; [ | discriminate].
    destruct (ComplianceResults.filter callback rest) as [kept' | e];
      cbn [bind] in Hk; [ | discriminate].
    injection Hk as <-. apply Hcb in Hx. subst b.
    rewrite (IH kept' eq_refl). reflexivity.
Qed.

Lemma isDetected_Normal (E : Engine) (field : Json) (b : bool) :
  ComplianceResults.isDetected E field = Normal b -> b = truthy_detected field.
Proof.
  unfold ComplianceResults.isDetected, truthy_detected.
  destruct (get E field "detected") as [d | e] eqn:Hd; cbn [bind];
    [ | discriminate].
  apply get_Normal in Hd as [_ ->]. now intros [= <-].
Qed.

Lemma isMissing_Normal (E : Engine) (field : Json) (b : bool) :
  ComplianceResults.isMissing E field = Normal b ->
  b = negb (truthy_detected field).
Proof.
  unfold ComplianceResults.isMissing, truthy_detected.
  destruct (get E field "detected") as [d | e] eqn:Hd; cbn [bind];
    [ | discriminate].
  apply get_Normal in Hd as [_ ->]. now intros [= <-].
Qed.

Lemma call_filter_Normal (E : Engine) (array : Json)
  (callback : Json -> Completion bool) (kept : list Json) :
  ComplianceResults.call_filter E array callback = Normal kept ->
  exists elements,
    array = JArray elements /\
    ComplianceResults.filter callback elements = Normal kept.
Proof.
  destruct array; cbn [ComplianceResults.call_filter]; try discriminate.
  eauto.
Qed.

(** C10. For every ComplianceResult that ComplianceResults renders, the
    lists detectedFields and missingFields partition result.fields: the
    fields are the two lists merged, each field taken from exactly one of
    them and each list in the order of result.fields; the detected ones are
    in the first list and the others in the second; the two lengths add up
    to the length of result.fields. *)
Theorem detected_and_missing_partition :
  forall (E : Engine) (result : ComplianceResult)
         (detected missing : list Json),
    ComplianceResults.detectedFields E result = Normal detected ->
    ComplianceResults.missingFields E result = Normal missing ->
    exists all : list Json,
      fields result = JArray all /\
      Interleave detected missing all /\
      detected = List.filter truthy_detected all /\
      missing = List.filter (fun field => negb (truthy_detected field)) all /\
      (forall field, In field all <-> In field detected \/ In field missing) /\
      (forall field, In field detected -> In field missing -> False) /\
      List.length detected + List.length missing = List.length all.
Proof.
  intros E result detected missing Hd Hm.
  apply call_filter_Normal in Hd as (all & Hall & Hd).
  apply call_filter_Normal in Hm as (all' & Hall' & Hm).
  rewrite Hall in Hall'. injection Hall' as <-.
  apply (filter_Normal _ truthy_detected (isDetected_Normal E)) in Hd.
  apply (filter_Normal _ (fun f => negb (truthy_detected f))
           (isMissing_Normal E)) in Hm.
  pose proof (Interleave_filter truthy_detected all) as Hi.
  rewrite <- Hd, <- Hm in Hi.
  exists all. repeat split; try assumption.
  - now apply Interleave_In.
  - now apply Interleave_In.
  - subst detected missing. intros field Hin Hin'.
    apply filter_In in Hin as [_ Ht]. apply filter_In in Hin' as [_ Hf].
    rewrite Ht in Hf. discriminate.
  - now apply Interleave_length.
Qed.

(** A result with two detected fields around a missing one. *)
Lemma detected_and_missing_partition_witness :
  fields result_two_of_three
  = JArray [ foundField "MRP" "150" "rupee";
             defaultField "Net Quantity" "package";
             foundField "Manufacturer" "Acme Foods" "building" ] /\
  forall E : Engine,
    ComplianceResults.detectedFields E result_two_of_three
    = Normal [ foundField "MRP" "150" "rupee";
               foundField "Manufacturer" "Acme Foods" "building" ] /\
    ComplianceResults.missingFields E result_two_of_three
    = Normal [ defaultField "Net Quantity" "package" ] /\
    Interleave
      [ foundField "MRP" "150" "rupee";
        foundField "Manufacturer" "Acme Foods" "building" ]
      [ defaultField "Net Quantity" "package" ]
      [ foundField "MRP" "150" "rupee";
        defaultField "Net Quantity" "package";
        foundField "Manufacturer" "Acme Foods" "building" ].
Proof.
  split; [reflexivity | ]. intros E.
  split; [reflexivity | ]. split; [reflexivity | ].
  destruct (detected_and_missing_partition E result_two_of_three
              [ foundField "MRP" "150" "rupee";
                foundField "Manufacturer" "Acme Foods" "building" ]
              [ defaultField "Net Quantity" "package" ]
              eq_refl eq_refl)
    as (all & Hall & Hi & _).
  injection Hall as <-. exact Hi.
Defined.

(** When the fields are not an array, or hold a null, rendering throws and
    neither list exists. *)
Example fields_not_an_array (E : Engine) :
  ComplianceResults.detectedFields E
    {| score := JNumber (Finite 0); extractedText := JString "";
       fields := JString "none"; status := JString "fail" |}
  = Throw (TypeError E (NotAFunction "filter")).
Proof. reflexivity. Qed.

(** A result whose fields are an array without null elements renders: both
    lists exist. *)
Lemma filter_completes (E : Engine) (all : list Json) :
  Forall (fun field => field <> JNull) all ->
  ComplianceResults.filter (ComplianceResults.isDetected E) all
  = Normal (List.filter truthy_detected all) /\
  ComplianceResults.filter (ComplianceResults.isMissing E) all
  = Normal (List.filter (fun field => negb (truthy_detected field)) all).
Proof.
  induction 1 as [ | field rest Hn _ [IHd IHm]]; [split; reflexivity | ].
  cbn [ComplianceResults.filter List.filter].
  unfold ComplianceResults.isDetected at 1, ComplianceResults.isMissing at 1.
  rewrite (get_own E field "detected" Hn). cbn [bind].
  rewrite IHd, IHm. cbn [bind]. fold (truthy_detected field).
  destruct (truthy_detected field); split; reflexivity.
Qed.

(** * Further properties of the same code *)

(** ** The object literal *)

(** What a result that was produced consists of. *)
Lemma complianceResult_Normal (E : Engine) (body : Json)
  (r : ComplianceResult) :
  complianceResult E body = Normal r ->
  body <> JNull /\
  or_else (own body "status") (statusFromScore E body) = Normal (status r) /\
  score r = or_default (own body "score") (JNumber (Finite 0)) /\
  extractedText r = or_default (own body "extracted_text") (JString "") /\
  fields r = or_default (own body "fields") defaultFields.
Proof.
  intros Hc.
  assert (Hn : body <> JNull).
  { intros ->. rewrite complianceResult_null in Hc. discriminate. }
  split; [exact Hn | ].
  rewrite (complianceResult_not_null _ body Hn) in Hc.
  destruct (or_else (own body "status") (statusFromScore E body))
    as [st | e]; cbn [bind] in Hc; [ | discriminate].
  injection Hc as <-. cbn [score extractedText fields status]. auto.
Qed.

Lemma or_default_truthy_or_default (a : option Json) (d : Json) :
  ToBoolean (Some (or_default a d)) = true \/ or_default a d = d.
Proof.
  destruct a as [v | ]; cbn [or_default]; [ | now right].
  destruct (ToBoolean (Some v)) eqn:Hv; [now left | now right].
Qed.

Lemma statusOfNumber_cases (n : Number) :
  statusOfNumber n = "pass" \/ statusOfNumber n = "partial" \/
  statusOfNumber n = "fail".
Proof.
  unfold statusOfNumber.
  destruct (number_ge n (60 # 1)); [now left | ].
  destruct (number_ge n (40 # 1)); [right; now left | right; now right].
Qed.

(** The status of a produced result: the response's truthy status, or the
    classification of the score's numeric value. *)
Lemma status_Normal (E : Engine) (body : Json) (r : ComplianceResult) :
  complianceResult E body = Normal r ->
  (ToBoolean (own body "status") = true /\ own body "status" = Some (status r))
  \/
  (ToBoolean (own body "status") = false /\
   exists n, ToNumber E (own body "score") = Normal n /\
             status r = JString (statusOfNumber n)).
Proof.
  intros Hc. destruct (complianceResult_Normal E body r Hc) as (Hn & Hst & _).
  rewrite (statusFromScore_not_null E body Hn) in Hst.
  destruct (ToBoolean (own body "status")) eqn:Hb.
  - left. split; [reflexivity | ].
    destruct (own body "status") as [v | ]; [ | discriminate].
    cbn [or_else] in Hst. rewrite Hb in Hst. now injection Hst as ->.
  - right. split; [reflexivity | ].
    rewrite (or_else_falsy _ _ Hb) in Hst.
    destruct (ToNumber E (own body "score")) as [n | e]; cbn [bind] in Hst;
      [ | discriminate].
    injection Hst as <-. now exists n.
Qed.

Lemma status_truthy (E : Engine) (body : Json) (r : ComplianceResult) :
  complianceResult E body = Normal r -> ToBoolean (Some (status r)) = true.
Proof.
  intros Hc. destruct (status_Normal E body r Hc) as [[Hb Hs] | [_ (n & _ & Hs)]].
  - now rewrite <- Hs.
  - rewrite Hs.
    destruct (statusOfNumber_cases n) as [-> | [-> | ->]]; reflexivity.
Qed.

Lemma fields_truthy (E : Engine) (body : Json) (r : ComplianceResult) :
  complianceResult E body = Normal r -> ToBoolean (Some (fields r)) = true.
Proof.
  intros Hc.
  destruct (complianceResult_Normal E body r Hc) as (_ & _ & _ & _ & Hf).
  rewrite Hf.
  destruct (or_default_truthy_or_default (own body "fields") defaultFields)
    as [Ht | ->]; [exact Ht | reflexivity].
Qed.

(** X1. Every result that the object literal produces has truthy fields and
    a truthy status, a score that is truthy or the number 0, and an
    extracted text that is truthy or the empty string: no property of a
    result is ever undefined or null. *)
Theorem produced_result_has_no_holes :
  forall (E : Engine) (body : Json) (r : ComplianceResult),
    complianceResult E body = Normal r ->
    ToBoolean (Some (fields r)) = true /\
    ToBoolean (Some (status r)) = true /\
    (ToBoolean (Some (score r)) = true \/ score r = JNumber (Finite 0)) /\
    (ToBoolean (Some (extractedText r)) = true \/
     extractedText r = JString "").
Proof.
  intros E body r Hc.
  destruct (complianceResult_Normal E body r Hc) as (_ & _ & Hs & Ht & _).
  split; [exact (fields_truthy E body r Hc) | ].
  split; [exact (status_truthy E body r Hc) | ].
  rewrite Hs, Ht. split; apply or_default_truthy_or_default.
Qed.

Lemma produced_result_has_no_holes_witness :
  fields result_score_75 = defaultFields /\
  forall E : Engine,
    ToBoolean (Some (fields result_score_75)) = true /\
    ToBoolean (Some (status result_score_75)) = true.
Proof.
  split; [reflexivity | ]. intros E.
  destruct (produced_result_has_no_holes E body_score_75 result_score_75
              eq_refl) as (Hf & Hs & _).
  split; assumption.
Defined.

(** X2. A produced result is a fixed point: sent back as a response body
    under the server's property names, it is produced again, unchanged. *)
Theorem echoed_result_is_reproduced :
  forall (E : Engine) (body : Json) (r : ComplianceResult),
    complianceResult E body = Normal r ->
    complianceResult E (echo r) = Normal r.
Proof.
  intros E body r Hc.
  destruct (complianceResult_Normal E body r Hc) as (_ & _ & Hs & Ht & _).
  pose proof (fields_truthy E body r Hc) as Hf.
  pose proof (status_truthy E body r Hc) as Hst.
  assert (Hn : echo r <> JNull) by discriminate.
  rewrite (complianceResult_not_null E (echo r) Hn).
  change (own (echo r) "status") with (Some (status r)).
  change (own (echo r) "score") with (Some (score r)).
  change (own (echo r) "extracted_text") with (Some (extractedText r)).
  change (own (echo r) "fields") with (Some (fields r)).
  cbn [or_else or_default]. rewrite Hst, Hf. cbn [bind].
  assert (Hs' : (if ToBoolean (Some (score r)) then score r
                 else JNumber (Finite 0)) = score r).
  { destruct (ToBoolean (Some (score r))) eqn:Hb; [reflexivity | ].
    destruct (or_default_truthy_or_default (own body "score")
                (JNumber (Finite 0))) as [Htr | Hd].
    - rewrite <- Hs in Htr. congruence.
    - now rewrite Hs, Hd. }
  assert (Ht' : (if ToBoolean (Some (extractedText r)) then extractedText r
                 else JString "") = extractedText r).
  { destruct (ToBoolean (Some (extractedText r))) eqn:Hb; [reflexivity | ].
    destruct (or_default_truthy_or_default (own body "extracted_text")
                (JString "")) as [Htr | Hd].
    - rewrite <- Ht in Htr. congruence.
    - now rewrite Ht, Hd. }
  rewrite Hs', Ht'. now destruct r.
Qed.

Lemma echoed_result_is_reproduced_witness :
  echo result_score_75
  = JObject [("score", JNumber (Finite (75 # 1)));
             ("extracted_text", JString "");
             ("fields", defaultFields); ("status", JString "pass")] /\
  forall E : Engine,
    complianceResult E (echo result_score_75) = Normal result_score_75.
Proof.
  split; [reflexivity | ]. intros E.
  exact (echoed_result_is_reproduced E body_score_75 result_score_75 eq_refl).
Defined.

(** X3. When the response has no truthy status, the status of the result is
    one of 'pass', 'partial' and 'fail', whatever the score is (a number, a
    string, anything); and it is 'fail' when the response has no score. *)
Theorem derived_status_is_one_of_three :
  forall (E : Engine) (body : Json) (r : ComplianceResult),
    complianceResult E body = Normal r ->
    ToBoolean (own body "status") = false ->
    (status r = JString "pass" \/ status r = JString "partial" \/
     status r = JString "fail") /\
    (own body "score" = undefined -> status r = JString "fail").
Proof.
  intros E body r Hc Hfalsy.
  destruct (status_Normal E body r Hc) as [[Hb _] | [_ (n & Hn & Hs)]];
    [congruence | ].
  split.
  - rewrite Hs.
    destruct (statusOfNumber_cases n) as [-> | [-> | ->]]; auto.
  - intros Hu. rewrite Hu in Hn. injection Hn as <-. exact Hs.
Qed.

Lemma derived_status_is_one_of_three_witness :
  ToBoolean (own body_empty "status") = false /\
  forall E : Engine, status result_default = JString "fail".
Proof.
  split; [reflexivity | ]. intros E.
  exact (proj2 (derived_status_is_one_of_three E body_empty result_default
                  eq_refl eq_refl) eq_refl).
Defined.

Lemma number_ge_monotone (x y : JsonNumber) (c : Q) :
  number_le x y -> number_ge (Num x) c = true -> number_ge (Num y) c = true.
Proof.
  destruct x as [p | [ | ]], y as [q | [ | ]]; simpl; intros Hle Hx;
    try reflexivity; try discriminate; try contradiction.
  apply Qle_bool_iff. apply Qle_bool_iff in Hx. now apply Qle_trans with p.
Qed.

(** X4. The derived status is monotone in the score: of two responses
    without a truthy status, the one with the larger numeric score never gets
    the lower status ('fail' below 'partial' below 'pass'). *)
Theorem derived_status_is_monotone :
  forall (E : Engine) (body body' : Json) (x y : JsonNumber)
         (r r' : ComplianceResult),
    complianceResult E body = Normal r ->
    complianceResult E body' = Normal r' ->
    own body "score" = Some (JNumber x) ->
    own body' "score" = Some (JNumber y) ->
    ToBoolean (own body "status") = false ->
    ToBoolean (own body' "status") = false ->
    number_le x y ->
    statusRank (status r) <= statusRank (status r').
Proof.
  intros E body body' x y r r' Hc Hc' Hx Hy Hf Hf' Hle.
  destruct (status_Normal E body r Hc) as [[Hb _] | [_ (n & Hn & Hs)]];
    [congruence | ].
  destruct (status_Normal E body' r' Hc') as [[Hb _] | [_ (n' & Hn' & Hs')]];
    [congruence | ].
  rewrite Hx in Hn. rewrite Hy in Hn'. cbn [ToNumber] in Hn, Hn'.
  injection Hn as <-. injection Hn' as <-.
  rewrite Hs, Hs'. unfold statusOfNumber.
  pose proof (number_ge_monotone x y (60 # 1) Hle) as M60.
  pose proof (number_ge_monotone x y (40 # 1) Hle) as M40.
  destruct (number_ge (Num x) (60 # 1)).
  - rewrite (M60 eq_refl). apply Nat.le_refl.
  - destruct (number_ge (Num x) (40 # 1)).
    + rewrite (M40 eq_refl).
      destruct (number_ge (Num y) (60 # 1)); cbn; lia.
    + destruct (number_ge (Num y) (60 # 1)); [cbn; lia | ].
      destruct (number_ge (Num y) (40 # 1)); cbn; lia.
Qed.

Lemma derived_status_is_monotone_witness :
  number_le (Finite (10 # 1)) (Finite (75 # 1)) /\
  forall E : Engine,
    statusRank (JString "fail") <= statusRank (status result_score_75).
Proof.
  assert (Hle : number_le (Finite (10 # 1)) (Finite (75 # 1))).
  { simpl. unfold Qle. simpl. lia. }
  split; [exact Hle | ]. intros E.
  exact (derived_status_is_monotone E
           (JObject [("score", JNumber (Finite (10 # 1)))]) body_score_75
           (Finite (10 # 1)) (Finite (75 # 1))
           {| score := JNumber (Finite (10 # 1)); extractedText := JString "";
              fields := defaultFields; status := JString "fail" |}
           result_score_75
           eq_refl eq_refl eq_refl eq_refl eq_refl eq_refl Hle).
Defined.

(** ** When a call succeeds *)

(** X5. For a response that is ok and whose body parses, checkCompliance
    succeeds exactly when the body is not null and either carries a truthy
    status or has a score whose conversion to a number does not throw; in
    particular it succeeds for every body that is not null and whose score is
    neither an array nor an object. *)
Theorem success_on_an_ok_response :
  forall (H : Host) (file : File) (response : Response) (body : Json),
    fetch H (checkComplianceRequest (Api.API_BASE_URL H) file)
      = Normal response ->
    ok response = true ->
    json response = Normal body ->
    ((exists r, Api.checkCompliance H file = Normal (succeeded r)) <->
     body <> JNull /\
     (ToBoolean (own body "status") = true \/
      exists n, ToNumber (engine H) (own body "score") = Normal n)) /\
    (body <> JNull ->
     (forall l, own body "score" <> Some (JArray l)) ->
     (forall p, own body "score" <> Some (JObject p)) ->
     exists r, Api.checkCompliance H file = Normal (succeeded r)).
Proof.
  intros H file response body Hf Hok Hj.
  rewrite (Api_checkCompliance_ok H file response body Hf Hok Hj).
  assert (Hiff : (exists r, complianceResult (engine H) body = Normal r) <->
                 body <> JNull /\
                 (ToBoolean (own body "status") = true \/
                  exists n, ToNumber (engine H) (own body "score") = Normal n)).
  { split.
    - intros [r Hc]. split.
      + now destruct (complianceResult_Normal _ body r Hc).
      + destruct (status_Normal _ body r Hc) as [[Hb _] | [_ (n & Hn & _)]];
          eauto.
    - intros [Hn Hcase].
      rewrite (complianceResult_not_null _ body Hn).
      rewrite (statusFromScore_not_null _ body Hn).
      destruct (own body "status") as [v | ] eqn:Hv; cbn [or_else].
      + destruct (ToBoolean (Some v)) eqn:Hb; cbn [bind]; [eauto | ].
        destruct Hcase as [Ht | [n Hnum]]; [discriminate | ].
        rewrite Hnum. cbn [bind]. eauto.
      + destruct Hcase as [Ht | [n Hnum]]; [discriminate | ].
        rewrite Hnum. cbn [bind]. eauto. }
  assert (Hsucc : (exists r, match complianceResult (engine H) body with
                             | Normal r0 => Normal (succeeded r0)
                             | Throw caught => Normal (failure caught)
                             end = Normal (succeeded r)) <->
                  (exists r, complianceResult (engine H) body = Normal r)).
  { destruct (complianceResult (engine H) body) as [r0 | e]; split;
      intros [r Hr]; eauto; discriminate. }
  split.
  - now rewrite Hsucc.
  - intros Hn Harr Hobj. apply Hsucc, Hiff. split; [exact Hn | ]. right.
    destruct (own body "score") as [[ | b | x | str | l | p] | ];
      cbn [ToNumber]; eauto.
    + now elim (Harr l).
    + now elim (Hobj p).
Qed.

Lemma success_on_an_ok_response_witness :
  body_score_75 <> JNull /\
  forall (E : Engine) (bodyText : string) (file : File),
  exists r,
    Api.checkCompliance
      (serving E (Normal (okResponse body_score_75 bodyText))) file
    = Normal (succeeded r).
Proof.
  split; [discriminate | ]. intros E bodyText file.
  apply (proj2 (success_on_an_ok_response
                  (serving E (Normal (okResponse body_score_75 bodyText)))
                  file (okResponse body_score_75 bodyText) body_score_75
                  eq_refl eq_refl eq_refl)).
  - discriminate.
  - intros l. discriminate.
  - intros p. discriminate.
Defined.

(** ** The Codespaces variant *)

(** X6. The Codespaces variant of checkCompliance is total as well: it
    completes normally with an APIResponse for every file and every outcome
    of the network call, also when reading the text of a response that is
    not ok fails, and the value has success=true exactly when it has a data
    field. *)
Theorem Codespaces_checkCompliance_total :
  forall (H : Host) (file : File),
  exists r : APIResponse,
    Codespaces.checkCompliance H file = Normal r /\
    (success r = true <-> exists d, data r = Some d).
Proof.
  intros H file. unfold Codespaces.checkCompliance.
  destruct (fetch H (checkComplianceRequest Codespaces.API_BASE_URL file))
    as [response | caught]; cbn [bind try_catch].
  - destruct (ok response); cbn [negb].
    + destruct (json response) as [body | caught]; cbn [bind try_catch].
      * destruct (complianceResult (engine H) body) as [r | caught];
          cbn [bind try_catch]; eexists; (split; [reflexivity | ]); simpl.
        -- split; eauto.
        -- split; [discriminate | intros [d Hd]; discriminate].
      * eexists; split; [reflexivity | ]; simpl.
        split; [discriminate | intros [d Hd]; discriminate].
    + destruct (text response) as [errorText | caught];
        cbn [bind try_catch]; eexists; (split; [reflexivity | ]); simpl;
        (split; [discriminate | intros [d Hd]; discriminate]).
  - eexists; split; [reflexivity | ]; simpl.
    split; [discriminate | intros [d Hd]; discriminate].
Qed.

(** X7. For a response that is not ok the Codespaces variant reports a
    failure whose message names the status code and quotes the response
    text; when reading that text fails, it reports the failure of the
    read instead. *)
Theorem Codespaces_reports_the_response_text :
  forall (H : Host) (file : File) (response : Response),
    fetch H (checkComplianceRequest Codespaces.API_BASE_URL file)
      = Normal response ->
    ok response = false ->
    (forall errorText : string,
        text response = Normal errorText ->
        Codespaces.checkCompliance H file
        = Normal {| success := false; data := None;
                    error := Some ("HTTP error! status: "
                                     ++ number_to_string (statusCode response)
                                     ++ ", message: " ++ errorText) |}) /\
    (forall caught : Thrown,
        text response = Throw caught ->
        Codespaces.checkCompliance H file
        = Normal {| success := false; data := None;
                    error := Some (reported caught) |}).
Proof.
  intros H file response Hf Hok. unfold Codespaces.checkCompliance.
  rewrite Hf. cbn [bind]. rewrite Hok. cbn [negb].
  split.
  - intros errorText Ht. now rewrite Ht.
  - intros caught Ht. now rewrite Ht.
Qed.

Lemma Codespaces_reports_the_response_text_witness :
  ok notFound = false /\
  forall (E : Engine) (file : File),
    Codespaces.checkCompliance (serving E (Normal notFound)) file
    = Normal {| success := false; data := None;
                error := Some "HTTP error! status: 404, message: Not Found" |}.
Proof.
  split; [reflexivity | ]. intros E file.
  exact (proj1 (Codespaces_reports_the_response_text
                  (serving E (Normal notFound)) file notFound
                  eq_refl eq_refl)
           "Not Found" eq_refl).
Defined.

(** ** What ComplianceResults shows *)

Lemma cues_of_number (E : Engine) (score_ : Json) (n : Number) :
  ToNumber E (Some score_) = Normal n ->
  ComplianceResults.getScoreColor E score_ = Normal (colourOf (bandOf n)) /\
  ComplianceResults.getScoreBorderColor E score_
  = Normal (borderOf (bandOf n)) /\
  ComplianceResults.getStatusIcon E score_ = Normal (iconOf (bandOf n)).
Proof.
  intros Hn.
  unfold ComplianceResults.getScoreColor, ComplianceResults.getScoreBorderColor,
    ComplianceResults.getStatusIcon, ge, bandOf.
  rewrite Hn. cbn [bind].
  destruct (number_ge n (60 # 1)); [repeat split | ].
  destruct (number_ge n (40 # 1)); repeat split.
Qed.

(** X8. The three visual cues of the score card never disagree: for every
    value of the score, getScoreColor, getScoreBorderColor and getStatusIcon
    choose the same band of green, yellow and red, namely the band of the
    score's numeric value; or, when the score cannot be converted to a
    number, all three throw the same error. *)
Theorem score_cues_agree :
  forall (E : Engine) (score_ : Json),
    (exists n : Number,
        ToNumber E (Some score_) = Normal n /\
        ComplianceResults.getScoreColor E score_
        = Normal (colourOf (bandOf n)) /\
        ComplianceResults.getScoreBorderColor E score_
        = Normal (borderOf (bandOf n)) /\
        ComplianceResults.getStatusIcon E score_
        = Normal (iconOf (bandOf n))) \/
    (exists caught : Thrown,
        ToNumber E (Some score_) = Throw caught /\
        ComplianceResults.getScoreColor E score_ = Throw caught /\
        ComplianceResults.getScoreBorderColor E score_ = Throw caught /\
        ComplianceResults.getStatusIcon E score_ = Throw caught).
Proof.
  intros E score_.
  destruct (ToNumber E (Some score_)) as [n | caught] eqn:Hn.
  - left. exists n. split; [reflexivity | ]. now apply cues_of_number.
  - right. exists caught. split; [reflexivity | ].
    unfold ComplianceResults.getScoreColor,
      ComplianceResults.getScoreBorderColor,
      ComplianceResults.getStatusIcon, ge.
    rewrite Hn. repeat split.
Qed.

Lemma statusText_of_band (r : ComplianceResult) (b : Band) :
  status r = JString (statusOf b) ->
  ComplianceResults.statusText r = [labelOf b].
Proof.
  intros Hs. unfold ComplianceResults.statusText. rewrite Hs.
  destruct b; reflexivity.
Qed.

(** X9. The status paragraph shows at most one label: 'Compliant',
    'Partially Compliant' or 'Non-Compliant' when the status is exactly the
    string 'pass', 'partial' or 'fail', and nothing at all for any other
    status value. *)
Theorem status_paragraph_shows_at_most_one_label :
  forall r : ComplianceResult,
    (exists b : Band,
        status r = JString (statusOf b) /\
        ComplianceResults.statusText r = [labelOf b]) \/
    ((forall b : Band, status r <> JString (statusOf b)) /\
     ComplianceResults.statusText r = []).
Proof.
  intros r.
  destruct (status r) as [ | bo | x | s | l | p] eqn:Hs;
    try (right; split;
         [ intros b; destruct b; discriminate
         | unfold ComplianceResults.statusText; rewrite Hs; reflexivity ]).
  destruct (String.eqb_spec s "pass") as [-> | Hpass].
  { left. exists green. split; [reflexivity | ].
    now apply (statusText_of_band r green). }
  destruct (String.eqb_spec s "partial") as [-> | Hpartial].
  { left. exists yellow. split; [reflexivity | ].
    now apply (statusText_of_band r yellow). }
  destruct (String.eqb_spec s "fail") as [-> | Hfail].
  { left. exists red. split; [reflexivity | ].
    now apply (statusText_of_band r red). }
  right. split.
  - intros b; destruct b; cbn [statusOf]; congruence.
  - unfold ComplianceResults.statusText. rewrite Hs.
    cbn [ComplianceResults.strictly_equals].
    apply String.eqb_neq in Hpass, Hpartial, Hfail.
    now rewrite Hpass, Hpartial, Hfail.
Qed.

(** X10. For a result produced from a response with a numeric score and no
    truthy status, the label of the status paragraph and the colour, the
    border and the icon of the score card all belong to one band, the band of
    that score. *)
Theorem label_and_cues_agree :
  forall (E : Engine) (body : Json) (x : JsonNumber) (r : ComplianceResult),
    complianceResult E body = Normal r ->
    own body "score" = Some (JNumber x) ->
    ToBoolean (own body "status") = false ->
    ComplianceResults.statusText r = [labelOf (bandOf (Num x))] /\
    ComplianceResults.getScoreColor E (score r)
    = Normal (colourOf (bandOf (Num x))) /\
    ComplianceResults.getScoreBorderColor E (score r)
    = Normal (borderOf (bandOf (Num x))) /\
    ComplianceResults.getStatusIcon E (score r)
    = Normal (iconOf (bandOf (Num x))).
Proof.
  intros E body x r Hc Hx Hfalsy.
  destruct (status_Normal E body r Hc) as [[Hb _] | [_ (n & Hn & Hs)]];
    [congruence | ].
  rewrite Hx in Hn. cbn [ToNumber] in Hn. injection Hn as <-.
  destruct (complianceResult_Normal E body r Hc) as (_ & _ & Hscore & _).
  rewrite Hx in Hscore.
  assert (Hband : bandOf (Num (or_zero x)) = bandOf (Num x)).
  { unfold bandOf. now rewrite !number_ge_or_zero. }
  assert (Hsc : score r = JNumber (or_zero x)).
  { rewrite Hscore. unfold or_default, or_zero.
    destruct (ToBoolean (Some (JNumber x))); reflexivity. }
  split.
  - apply statusText_of_band. rewrite Hs. unfold statusOfNumber, bandOf.
    destruct (number_ge (Num x) (60 # 1)); [reflexivity | ].
    destruct (number_ge (Num x) (40 # 1)); reflexivity.
  - rewrite Hsc, <- Hband. now apply cues_of_number.
Qed.

Lemma label_and_cues_agree_witness :
  own body_score_75 "score" = Some (JNumber (Finite (75 # 1))) /\
  forall E : Engine,
    ComplianceResults.statusText result_score_75 = ["Compliant"] /\
    ComplianceResults.getScoreColor E (score result_score_75)
    = Normal "text-green-600 bg-green-100".
Proof.
  split; [reflexivity | ]. intros E.
  destruct (label_and_cues_agree E body_score_75 (Finite (75 # 1))
              result_score_75 eq_refl eq_refl eq_refl) as (Hl & Hc & _).
  split; [exact Hl | exact Hc].
Defined.

(** X11. When the response has no usable fields, the cards show the
    fallback: no field is detected, so the detected card shows 'No fields
    detected', and the five default fields are all listed as missing. *)
Theorem fallback_fields_are_all_missing :
  forall (E : Engine) (body : Json) (r : ComplianceResult),
    complianceResult E body = Normal r ->
    ToBoolean (own body "fields") = false ->
    exists five : list Json,
      defaultFields = JArray five /\
      List.length five = 5 /\
      ComplianceResults.detectedFields E r = Normal [] /\
      ComplianceResults.missingFields E r = Normal five /\
      ComplianceResults.detectedCard [] = ComplianceResults.Paragraph
                                            "No fields detected" /\
      ComplianceResults.missingCard five = ComplianceResults.Items five.
Proof.
  intros E body r Hc Hfalsy.
  destruct (complianceResult_Normal E body r Hc) as (_ & _ & _ & _ & Hf).
  rewrite (or_default_falsy _ _ Hfalsy) in Hf.
  unfold ComplianceResults.detectedFields, ComplianceResults.missingFields.
  rewrite Hf. eexists. split; [reflexivity | ].
  repeat split.
Qed.

Lemma fallback_fields_are_all_missing_witness :
  ToBoolean (own body_empty "fields") = false /\
  forall E : Engine,
    ComplianceResults.detectedFields E result_default = Normal [].
Proof.
  split; [reflexivity | ]. intros E.
  destruct (fallback_fields_are_all_missing E body_empty result_default
              eq_refl eq_refl) as (five & _ & _ & Hd & _).
  exact Hd.
Defined.

(** X12. For a produced result, the expression the extracted-text panel
    hands to React, [result.extractedText || 'No text extracted'], is the
    extracted_text of the response when that value is truthy and the string
    'No text extracted' otherwise; so when the response's extracted_text is a
    string, it is a string that is not empty: that very string, or the
    placeholder when the string is empty.  (What React draws for a value
    that is no string is not part of the statement.) *)
Theorem extracted_text_or_placeholder :
  forall (E : Engine) (body : Json) (r : ComplianceResult),
    complianceResult E body = Normal r ->
    (ToBoolean (own body "extracted_text") = true ->
     Some (ComplianceResults.shownText r) = own body "extracted_text") /\
    (ToBoolean (own body "extracted_text") = false ->
     ComplianceResults.shownText r = JString "No text extracted") /\
    (forall s : string,
        own body "extracted_text" = Some (JString s) ->
        ComplianceResults.shownText r
        = JString (if (s =? "")%string then "No text extracted" else s) /\
        ComplianceResults.shownText r <> JString "").
Proof.
  intros E body r Hc.
  destruct (complianceResult_Normal E body r Hc) as (_ & _ & _ & Ht & _).
  unfold ComplianceResults.shownText. rewrite Ht.
  split; [ | split].
  - intros Htruthy.
    destruct (own body "extracted_text") as [v | ]; [ | discriminate].
    cbn [or_default]. rewrite Htruthy. now rewrite Htruthy.
  - intros Hfalsy. rewrite (or_default_falsy _ _ Hfalsy). reflexivity.
  - intros s ->. cbn [or_default ToBoolean].
    destruct (String.eqb_spec s "") as [-> | Hne]; cbn [negb].
    + split; [reflexivity | discriminate].
    + cbn [ToBoolean]. apply String.eqb_neq in Hne. rewrite Hne. cbn [negb].
      split; [reflexivity | ]. apply String.eqb_neq in Hne. congruence.
Qed.

Lemma extracted_text_or_placeholder_witness :
  own body_score_75 "extracted_text" = undefined /\
  forall E : Engine,
    ComplianceResults.shownText result_score_75 = JString "No text extracted".
Proof.
  split; [reflexivity | ]. intros E.
  exact (proj1 (proj2 (extracted_text_or_placeholder E body_score_75
                         result_score_75 eq_refl)) eq_refl).
Defined.

(** X13. getFieldIcon knows the icon of each of the five default fields,
    each a different one, and falls back to the Package icon for every name
    that neither iconMap nor Object.prototype defines. *)
Theorem field_icons_are_known_or_package :
  forall inherited : string -> bool,
    (exists five : list Json,
        defaultFields = JArray five /\
        map (fun field =>
               match own field "icon" with
               | Some (JString iconName) =>
                   Some (ComplianceResults.getFieldIcon inherited iconName)
               | _ => None
               end) five
        = map (fun c => Some (ComplianceResults.element
                                {| ComplianceResults.component := c;
                                   ComplianceResults.className := "w-5 h-5" |}))
              ["IndianRupee"; "Package"; "Building"; "Globe"; "Calendar"]) /\
    (forall iconName : string,
        iconName <> "rupee" -> iconName <> "package" ->
        iconName <> "building" -> iconName <> "globe" ->
        iconName <> "calendar" ->
        inherited iconName = false ->
        ComplianceResults.getFieldIcon inherited iconName
        = ComplianceResults.element
            {| ComplianceResults.component := "Package";
               ComplianceResults.className := "w-5 h-5" |}).
Proof.
  intros inherited. split.
  - eexists. split; reflexivity.
  - intros iconName H1 H2 H3 H4 H5 Hi.
    unfold ComplianceResults.getFieldIcon, ComplianceResults.iconMap.
    cbn [ComplianceResults.iconMap_own].
    apply not_eq_sym in H1, H2, H3, H4, H5.
    apply String.eqb_neq in H1, H2, H3, H4, H5.
    now rewrite H1, H2, H3, H4, H5, Hi.
Qed.

(** ** What FileUpload selects *)

(** X14. Both handlers look at the first file only: the other files of a
    selection or a drop change nothing, so when the first file has a type
    that is not accepted no file is selected, even if an accepted one
    follows. *)
Theorem only_the_first_file_counts :
  forall (file : File) (others : list File),
    FileUpload.handleFileChange
      {| FileUpload.target_files := Some (file :: others) |}
    = FileUpload.handleFileChange
        {| FileUpload.target_files := Some [file] |} /\
    FileUpload.handleDrop
      {| FileUpload.dataTransfer_files := Some (file :: others) |}
    = FileUpload.handleDrop
        {| FileUpload.dataTransfer_files := Some [file] |} /\
    (~ accepted file ->
     forall other : File,
       ~ In (FileUpload.onFileSelect other)
            (FileUpload.handleFileChange
               {| FileUpload.target_files := Some (file :: others) |}) /\
       ~ In (FileUpload.onFileSelect other)
            (FileUpload.handleDrop
               {| FileUpload.dataTransfer_files := Some (file :: others) |})).
Proof.
  intros file others. split; [reflexivity | ]. split; [reflexivity | ].
  intros Hrej other. split; intros Hin.
  - apply handleFileChange_calls in Hin as [Hfirst Hacc].
    cbn in Hfirst. injection Hfirst as <-.
    apply Hrej. now apply includes_acceptedTypes.
  - apply handleDrop_calls in Hin as [Hfirst Hacc].
    cbn in Hfirst. injection Hfirst as <-.
    apply Hrej. now apply includes_acceptedTypes.
Qed.

Lemma only_the_first_file_counts_witness :
  ~ accepted manual /\
  ~ In (FileUpload.onFileSelect labelPhoto)
       (FileUpload.handleDrop
          {| FileUpload.dataTransfer_files := Some [manual; labelPhoto] |}).
Proof.
  assert (Hrej : ~ accepted manual).
  { unfold accepted. cbn. intros [H | [H | H]]; discriminate. }
  split; [exact Hrej | ].
  exact (proj2 (proj2 (proj2 (only_the_first_file_counts manual [labelPhoto]))
                  Hrej labelPhoto)).
Defined.

(** ** The application as a whole *)

Lemma effects_of_change (event : FileUpload.ChangeEvent) :
  FileUpload.handleFileChange event = [] \/
  exists file, accepted file /\
               FileUpload.handleFileChange event = [FileUpload.onFileSelect file].
Proof.
  unfold FileUpload.handleFileChange.
  destruct (FileUpload.first (FileUpload.target_files event)) as [f | ];
    [ | now left].
  destruct (FileUpload.includes FileUpload.acceptedTypes (type f)) eqn:Hi;
    [ | now left].
  right. exists f. split; [ | reflexivity]. now apply includes_acceptedTypes.
Qed.

Lemma effects_of_drop (event : FileUpload.DragEvent) :
  FileUpload.handleDrop event = [FileUpload.preventDefault] \/
  exists file, accepted file /\
               FileUpload.handleDrop event
               = [FileUpload.preventDefault; FileUpload.onFileSelect file].
Proof.
  unfold FileUpload.handleDrop.
  destruct (FileUpload.first (FileUpload.dataTransfer_files event)) as [f | ];
    [ | now left].
  destruct (FileUpload.includes FileUpload.acceptedTypes (type f)) eqn:Hi;
    [ | now left].
  right. exists f. split; [ | reflexivity]. now apply includes_acceptedTypes.
Qed.

Lemma errorOrDefault_not_empty (response : APIResponse) :
  App.errorOrDefault response <> "".
Proof.
  unfold App.errorOrDefault. destruct (error response) as [e | ];
    [ | discriminate].
  destruct (String.eqb_spec e ""); [discriminate | assumption].
Qed.

Section Application.

Variable checkCompliance : Host -> File -> Completion APIResponse.

Lemma consistent_started : consistent checkCompliance App.started.
Proof.
  unfold consistent. cbn. repeat split; try reflexivity; discriminate.
Qed.

(** Selecting an accepted file while none is selected. *)
Lemma consistent_select (r : App.Running) (file : File) :
  consistent checkCompliance r ->
  App.selectedFile (App.ui r) = None ->
  accepted file ->
  consistent checkCompliance
    {| App.ui := App.handleFileSelect file (App.ui r);
       App.awaiting := App.awaiting r |}.
Proof.
  destruct r as [[st sf res err] aw]. unfold consistent. cbn.
  intros (Hup & Hacc & Haw & Herr & Hres) -> Hfile.
  assert (Hst : st = App.Upload) by now apply Hup.
  subst st. repeat split; try discriminate; try assumption.
  now intros f [= <-].
Qed.

(** Going back to the upload state when no call is pending. *)
Lemma consistent_reset (r : App.Running) :
  App.awaiting r = [] ->
  consistent checkCompliance
    {| App.ui := App.handleClearFile (App.ui r);
       App.awaiting := App.awaiting r |}.
Proof.
  intros ->. unfold consistent. cbn.
  repeat split; try reflexivity; discriminate.
Qed.

Lemma consistent_fire (r : App.Running) (e : App.Event) :
  consistent checkCompliance r ->
  App.enabled r e = true ->
  consistent checkCompliance (App.fire checkCompliance r e).
Proof.
  intros Hr He.
  destruct e as [event | event | event | | | | | n H]; cbn [App.fire].
  - (* FileChange *)
    cbn [App.enabled] in He. apply andb_true_iff in He as [Hnone _].
    destruct (App.selectedFile (App.ui r)) eqn:Hsf; [discriminate | ].
    destruct (effects_of_change event) as [-> | (f & Hf & ->)]; cbn [fold_left].
    + now destruct r.
    + now apply consistent_select.
  - (* DragOver *)
    cbn. now destruct r.
  - (* Drop *)
    cbn [App.enabled] in He.
    destruct (App.selectedFile (App.ui r)) eqn:Hsf; [discriminate | ].
    destruct (effects_of_drop event) as [-> | (f & Hf & ->)];
      cbn [fold_left App.perform].
    + now destruct r.
    + now apply consistent_select.
  - (* ClearClick *)
    apply consistent_reset.
    cbn [App.enabled] in He. apply andb_true_iff in He as [_ Hd].
    destruct Hr as (_ & _ & Haw & _).
    unfold App.disabled in Hd.
    destruct (App.state (App.ui r)); try exact Haw. discriminate.
  - (* CheckClick *)
    destruct r as [[st sf res err] aw]. unfold consistent in *.
    cbn in *. destruct Hr as (Hup & Hacc & Haw & Herr & Hres).
    destruct sf as [f | ]; [ | destruct st; discriminate].
    cbn. destruct st; try discriminate; subst aw; cbn;
      (repeat split; try discriminate; try assumption; eauto).
  - (* CheckAnotherClick *)
    apply consistent_reset.
    cbn [App.enabled] in He. destruct Hr as (_ & _ & Haw & _).
    destruct (App.state (App.ui r)); try discriminate. exact Haw.
  - (* TryAgainClick *)
    apply consistent_reset.
    cbn [App.enabled] in He. destruct Hr as (_ & _ & Haw & _).
    destruct (App.state (App.ui r)); try discriminate. exact Haw.
  - (* Settle *)
    cbn [App.enabled] in He.
    destruct (nth_error (App.awaiting r) n) as [file | ] eqn:Hnth;
      [ | discriminate].
    destruct r as [[st sf res err] aw]. unfold consistent in *.
    cbn in *. destruct Hr as (Hup & Hacc & Haw & Herr & Hres).
    destruct st; try (subst aw; destruct n; discriminate).
    destruct Haw as (f & -> & [-> | ->]); [ | destruct n; discriminate].
    destruct n as [ | n]; [ | destruct n; discriminate].
    cbn in Hnth. injection Hnth as <-. cbn.
    destruct (checkCompliance H f) as [response | caught] eqn:Hcall.
    + unfold App.handleCheckCompliance_resumed.
      destruct (success response) eqn:Hs;
        [destruct (data response) as [d | ] eqn:Hd | ]; cbn;
        repeat split; try discriminate; try assumption;
        try apply errorOrDefault_not_empty.
      exists f, d. repeat split. exists H, response. auto.
    + cbn. repeat split; try discriminate; try assumption. eauto.
Qed.

Lemma reachable_consistent (r : App.Running) :
  App.reachable checkCompliance r -> consistent checkCompliance r.
Proof.
  induction 1 as [ | r e _ IH He].
  - apply consistent_started.
  - now apply consistent_fire.
Qed.

End Application.

Lemma reachable_previewing :
  App.reachable Api.checkCompliance previewing.
Proof.
  exact (App.reachable_fire Api.checkCompliance App.started
           (App.FileChange {| FileUpload.target_files := Some [labelPhoto] |})
           (App.reachable_started _) eq_refl).
Qed.

Lemma reachable_checking :
  App.reachable Api.checkCompliance checking.
Proof.
  exact (App.reachable_fire Api.checkCompliance previewing App.CheckClick
           reachable_previewing eq_refl).
Qed.

Lemma reachable_settled (H : Host) :
  App.reachable Api.checkCompliance (settled H).
Proof.
  exact (App.reachable_fire Api.checkCompliance checking (App.Settle 0 H)
           reachable_checking eq_refl).
Qed.

Lemma Api_never_throws : never_throws Api.checkCompliance.
Proof.
  intros H file. unfold Api.checkCompliance.
  destruct (fetch H (checkComplianceRequest (Api.API_BASE_URL H) file))
    as [response | caught]; cbn [bind try_catch]; [ | eauto].
  destruct (ok response); cbn [negb]; [ | cbn; eauto].
  destruct (json response) as [body | caught]; cbn [bind try_catch];
    [ | eauto].
  destruct (complianceResult (engine H) body); cbn; eauto.
Qed.

(** X15. The application never holds or sends a file of a type that is not
    accepted: at every moment the selected file, and the file of every call
    of checkCompliance that is under way, has the type image/jpeg, image/png
    or image/webp. *)
Theorem held_and_sent_files_are_accepted :
  forall (checkCompliance : Host -> File -> Completion APIResponse)
         (r : App.Running),
    App.reachable checkCompliance r ->
    (forall file, App.selectedFile (App.ui r) = Some file -> accepted file) /\
    (forall file, In file (App.awaiting r) -> accepted file).
Proof.
  intros cc r Hreach.
  destruct (reachable_consistent cc r Hreach) as (_ & Hacc & Haw & _).
  split; [exact Hacc | ]. intros file Hin.
  destruct (App.state (App.ui r));
    try (rewrite Haw in Hin; contradiction).
  destruct Haw as (f & Hf & [Hw | Hw]); rewrite Hw in Hin;
    [ | contradiction].
  destruct Hin as [<- | []]. now apply Hacc.
Qed.

Lemma held_and_sent_files_are_accepted_witness :
  App.awaiting checking = [labelPhoto] /\ accepted labelPhoto.
Proof.
  split; [reflexivity | ].
  exact (proj2 (held_and_sent_files_are_accepted Api.checkCompliance checking
                  reachable_checking) labelPhoto (or_introl eq_refl)).
Defined.

(** X16. At most one call of checkCompliance is under way at any moment; it
    is a call for the selected file, and the application is then in the
    state 'processing'. *)
Theorem one_call_at_a_time :
  forall (checkCompliance : Host -> File -> Completion APIResponse)
         (r : App.Running),
    App.reachable checkCompliance r ->
    List.length (App.awaiting r) <= 1 /\
    (forall file,
        In file (App.awaiting r) ->
        App.state (App.ui r) = App.Processing /\
        App.selectedFile (App.ui r) = Some file).
Proof.
  intros cc r Hreach.
  destruct (reachable_consistent cc r Hreach) as (_ & _ & Haw & _).
  destruct (App.state (App.ui r));
    try (rewrite Haw; split; [cbn; lia | intros file []]).
  destruct Haw as (f & Hf & [Hw | Hw]); rewrite Hw.
  - split; [cbn; lia | ]. intros file [<- | []]. now split.
  - split; [cbn; lia | ]. intros file [].
Qed.

Lemma one_call_at_a_time_witness :
  In labelPhoto (App.awaiting checking) /\
  App.state (App.ui checking) = App.Processing.
Proof.
  assert (Hin : In labelPhoto (App.awaiting checking)) by (left; reflexivity).
  split; [exact Hin | ].
  exact (proj1 (proj2 (one_call_at_a_time Api.checkCompliance checking
                         reachable_checking) labelPhoto Hin)).
Defined.

(** X17. While the application is in the state 'processing' nothing on the
    page reacts to the user: no file can be chosen, dropped or cleared and
    no button can be clicked; the only thing that can happen is that the
    pending call settles. *)
Theorem nothing_reacts_while_processing :
  forall (checkCompliance : Host -> File -> Completion APIResponse)
         (r : App.Running) (e : App.Event),
    App.reachable checkCompliance r ->
    App.state (App.ui r) = App.Processing ->
    App.enabled r e = true ->
    exists (n : nat) (H : Host), e = App.Settle n H.
Proof.
  intros cc r e Hreach Hst He.
  destruct (reachable_consistent cc r Hreach) as (_ & _ & Haw & _).
  rewrite Hst in Haw. destruct Haw as (f & Hf & _).
  destruct e as [event | event | event | | | | | n H]; cbn [App.enabled] in He;
    unfold App.disabled in He; rewrite ?Hst, ?Hf in He; cbn in He;
    try discriminate.
  eauto.
Qed.

Lemma nothing_reacts_while_processing_witness :
  App.state (App.ui checking) = App.Processing /\
  forall H : Host,
  exists (n : nat) (H' : Host), App.Settle 0 H = App.Settle n H'.
Proof.
  split; [reflexivity | ]. intros H.
  exact (nothing_reacts_while_processing Api.checkCompliance checking
           (App.Settle 0 H) reachable_checking eq_refl eq_refl).
Defined.



(** X19. The error text is set exactly in the state 'error': there it is
    never empty, so the error card always has something to say, and in every
    other state it is the empty string. *)
Theorem error_text_goes_with_the_error_state :
  forall (checkCompliance : Host -> File -> Completion APIResponse)
         (r : App.Running),
    App.reachable checkCompliance r ->
    (App.state (App.ui r) = App.Error -> App.error (App.ui r) <> "") /\
    (App.state (App.ui r) <> App.Error -> App.error (App.ui r) = "").
Proof.
  intros cc r Hreach.
  destruct (reachable_consistent cc r Hreach) as (_ & _ & _ & Herr & _).
  destruct (App.state (App.ui r)); split; intros Hs;
    try discriminate; try assumption; now elim Hs.
Qed.

Lemma error_text_goes_with_the_error_state_witness :
  App.state (App.ui checking) = App.Processing /\
  forall E : Engine,
    App.state (App.ui (settled (serving E (Normal notFound)))) = App.Error /\
    App.error (App.ui (settled (serving E (Normal notFound)))) <> "".
Proof.
  split; [reflexivity | ]. intros E.
  split; [reflexivity | ].
  exact (proj1 (error_text_goes_with_the_error_state Api.checkCompliance
                  (settled (serving E (Normal notFound)))
                  (reachable_settled _)) eq_refl).
Defined.

(** X20. The application is in the state 'upload' exactly when no file is
    selected, and in the states 'upload' and 'preview' it holds no result:
    the result of an earlier file never stays behind when a new file is
    chosen. *)
Theorem no_result_outlives_its_file :
  forall (checkCompliance : Host -> File -> Completion APIResponse)
         (r : App.Running),
    App.reachable checkCompliance r ->
    (App.state (App.ui r) = App.Upload <->
     App.selectedFile (App.ui r) = None) /\
    (App.state (App.ui r) = App.Upload \/ App.state (App.ui r) = App.Preview ->
     App.result (App.ui r) = None).
Proof.
  intros cc r Hreach.
  destruct (reachable_consistent cc r Hreach) as (Hup & _ & _ & _ & Hres).
  split; [exact Hup | ].
  intros [Hs | Hs]; rewrite Hs in Hres; exact Hres.
Qed.

Lemma no_result_outlives_its_file_witness :
  App.state (App.ui previewing) = App.Preview /\
  App.result (App.ui previewing) = None.
Proof.
  split; [reflexivity | ].
  exact (proj2 (no_result_outlives_its_file Api.checkCompliance previewing
                  reachable_previewing) (or_intror eq_refl)).
Defined.

(** With an implementation that never throws, a call is pending whenever
    the application is processing. *)
Lemma pending_while_processing
  (checkCompliance : Host -> File -> Completion APIResponse)
  (r : App.Running) :
  never_throws checkCompliance ->
  App.reachable checkCompliance r ->
  App.state (App.ui r) = App.Processing ->
  exists file, App.awaiting r = [file] /\
               App.selectedFile (App.ui r) = Some file.
Proof.
  intros Hnt Hreach. induction Hreach as [ | r e Hreach IH He];
    [discriminate | ].
  pose proof (reachable_consistent _ r Hreach) as Hc.
  destruct e as [event | event | event | | | | | n H]; cbn [App.fire].
  - destruct (effects_of_change event) as [-> | (f & _ & ->)]; cbn; intros Hs.
    + cbn [App.enabled] in He. apply andb_true_iff in He as [_ Hd].
      unfold App.disabled in Hd. rewrite Hs in Hd. discriminate.
    + discriminate.
  - cbn. intros Hs. cbn [App.enabled] in He.
    destruct Hc as (_ & _ & Haw & _). rewrite Hs in Haw.
    destruct Haw as (f & Hf & _). rewrite Hf in He. discriminate.
  - destruct (effects_of_drop event) as [-> | (f & _ & ->)]; cbn; intros Hs.
    + cbn [App.enabled] in He.
      destruct Hc as (_ & _ & Haw & _). rewrite Hs in Haw.
      destruct Haw as (f & Hf & _). rewrite Hf in He. discriminate.
    + discriminate.
  - discriminate.
  - cbn [App.enabled] in He. unfold App.handleCheckCompliance.
    destruct Hc as (_ & _ & Haw & _).
    destruct (App.selectedFile (App.ui r)) as [f | ] eqn:Hf.
    + cbn. intros _. exists f.
      destruct (App.state (App.ui r)); try discriminate; rewrite Haw;
        now split.
    + destruct (App.state (App.ui r)); discriminate.
  - discriminate.
  - discriminate.
  - cbn [App.enabled] in He.
    destruct (nth_error (App.awaiting r) n) as [file | ] eqn:Hnth;
      [ | discriminate].
    cbn. destruct (Hnt H file) as [response ->].
    unfold App.handleCheckCompliance_resumed.
    destruct (success response); [destruct (data response) | ]; discriminate.
Qed.

(** X21. With a checkCompliance that never throws, as both variants are,
    the application never stays in 'processing': whenever it is processing,
    the pending call can settle, and when it does the application moves to
    'results' or to 'error' and no call remains. *)
Theorem processing_always_ends :
  forall (checkCompliance : Host -> File -> Completion APIResponse)
         (r : App.Running) (H : Host),
    never_throws checkCompliance ->
    App.reachable checkCompliance r ->
    App.state (App.ui r) = App.Processing ->
    App.enabled r (App.Settle 0 H) = true /\
    (App.state (App.ui (App.fire checkCompliance r (App.Settle 0 H)))
     = App.Results \/
     App.state (App.ui (App.fire checkCompliance r (App.Settle 0 H)))
     = App.Error) /\
    App.awaiting (App.fire checkCompliance r (App.Settle 0 H)) = [].
Proof.
  intros cc r H Hnt Hreach Hst.
  destruct (pending_while_processing cc r Hnt Hreach Hst) as (file & Haw & _).
  cbn [App.enabled App.fire]. rewrite Haw. cbn [nth_error App.isSome].
  split; [reflexivity | ]. cbn [App.ui App.awaiting App.drop_nth].
  split; [ | reflexivity].
  destruct (Hnt H file) as [response ->].
  unfold App.handleCheckCompliance_resumed.
  destruct (success response); [destruct (data response) | ]; cbn; auto.
Qed.

Lemma processing_always_ends_witness :
  App.state (App.ui checking) = App.Processing /\
  forall H : Host,
    App.state (App.ui (settled H)) = App.Results \/
    App.state (App.ui (settled H)) = App.Error.
Proof.
  split; [reflexivity | ]. intros H.
  exact (proj1 (proj2 (processing_always_ends Api.checkCompliance checking H
                         Api_never_throws reachable_checking eq_refl))).
Defined.

(** ** The object URLs of ImagePreview *)

Lemma last_cons {A : Type} (x : A) (l : list A) (d : A) :
  last (x :: l) d = last l x.
Proof.
  revert x d. induction l as [ | y l IH]; intros x d; [reflexivity | ].
  change (last (x :: y :: l) d) with (last (y :: l) d).
  rewrite (IH y d). symmetry. apply IH.
Qed.

Section ObjectURLs.

(** The URLs that were live before the component was mounted. *)
Variable before : list (ImagePreview.ObjectURL * File).

Lemma revoke_newest (url : ImagePreview.ObjectURL) (file : File)
  (store : ImagePreview.URLStore) :
  ImagePreview.live store = (url, file) :: before ->
  Forall (fun entry => (fst entry < url)%N) before ->
  ImagePreview.live (ImagePreview.revokeObjectURL url store) = before.
Proof.
  intros Hlive Hold. unfold ImagePreview.revokeObjectURL.
  cbn [ImagePreview.live]. rewrite Hlive. cbn [List.filter fst].
  rewrite N.eqb_refl. cbn [negb].
  clear Hlive. induction Hold as [ | entry rest Hlt _ IH]; [reflexivity | ].
  cbn [List.filter]. rewrite IH.
  destruct (N.eqb_spec (fst entry) url) as [Heq | _]; [lia | reflexivity].
Qed.

Lemma showing_mount (file : File) (store : ImagePreview.URLStore) :
  ImagePreview.live store = before ->
  issued store ->
  showing before file (ImagePreview.mount file store).
Proof.
  intros Hlive Hissued. exists (ImagePreview.nextURL store). cbn.
  rewrite Hlive. repeat split.
  - unfold issued in Hissued. now rewrite Hlive in Hissued.
  - lia.
Qed.

Lemma showing_update (file file' : File)
  (ms : ImagePreview.Mounted * ImagePreview.URLStore) :
  showing before file ms ->
  showing before file' (ImagePreview.update file' ms).
Proof.
  intros (url & Hstate & Hclean & Hlive & Hold & Hnext).
  exists (ImagePreview.nextURL (snd ms)).
  unfold ImagePreview.update, ImagePreview.runCleanup. rewrite Hclean.
  pose proof (revoke_newest url file (snd ms) Hlive Hold) as Hrevoked.
  assert (Hsame : ImagePreview.nextURL
                    (ImagePreview.revokeObjectURL url (snd ms))
                  = ImagePreview.nextURL (snd ms)) by reflexivity.
  set (revoked := ImagePreview.revokeObjectURL url (snd ms)) in *.
  cbn [ImagePreview.effect ImagePreview.createObjectURL fst snd
       ImagePreview.imageUrl ImagePreview.cleanup ImagePreview.live
       ImagePreview.nextURL].
  rewrite Hrevoked, Hsame.
  repeat split.
  - eapply Forall_impl; [ | exact Hold]. cbn. intros entry Hlt. lia.
  - lia.
Qed.

Lemma showing_shown (file : File) (changes : list File)
  (store : ImagePreview.URLStore) :
  ImagePreview.live store = before ->
  issued store ->
  showing before (last changes file)
    (ImagePreview.shown file changes store).
Proof.
  intros Hlive Hissued. unfold ImagePreview.shown.
  pose proof (showing_mount file store Hlive Hissued) as Hm.
  generalize dependent (ImagePreview.mount file store).
  revert file. induction changes as [ | file' rest IH]; intros file ms Hm.
  - exact Hm.
  - cbn [fold_left].
    rewrite last_cons. apply IH. now apply showing_update with file.
Qed.

End ObjectURLs.

(** X22. While ImagePreview is mounted, whatever files it has been given one
    after the other, the URL in its state is live and stands for the file it
    shows now, and it is the only object URL the component holds: the URLs of
    the files shown before have been revoked. *)
Theorem the_url_shown_is_the_only_one_live :
  forall (file : File) (changes : list File)
         (store : ImagePreview.URLStore),
    issued store ->
    exists url : ImagePreview.ObjectURL,
      ImagePreview.imageUrl (fst (ImagePreview.shown file changes store))
      = Some url /\
      ImagePreview.live (snd (ImagePreview.shown file changes store))
      = (url, last changes file) :: ImagePreview.live store /\
      ~ In url (map fst (ImagePreview.live store)).
Proof.
  intros file changes store Hissued.
  destruct (showing_shown (ImagePreview.live store) file changes store
              eq_refl Hissued) as (url & Hstate & _ & Hlive & Hold & _).
  exists url. split; [exact Hstate | ]. split; [exact Hlive | ].
  intros Hin. apply in_map_iff in Hin as (entry & Hfst & Hin).
  rewrite Forall_forall in Hold. specialize (Hold entry Hin).
  apply (N.lt_irrefl url). rewrite <- Hfst at 1. exact Hold.
Qed.

Lemma the_url_shown_is_the_only_one_live_witness :
  issued {| ImagePreview.nextURL := 0%N; ImagePreview.live := [] |} /\
  exists url : ImagePreview.ObjectURL,
    ImagePreview.live
      (snd (ImagePreview.shown labelPhoto [manual; labelPhoto]
              {| ImagePreview.nextURL := 0%N; ImagePreview.live := [] |}))
    = [(url, labelPhoto)].
Proof.
  assert (Hissued : issued {| ImagePreview.nextURL := 0%N;
                              ImagePreview.live := [] |}) by constructor.
  split; [exact Hissued | ].
  destruct (the_url_shown_is_the_only_one_live labelPhoto [manual; labelPhoto]
              {| ImagePreview.nextURL := 0%N; ImagePreview.live := [] |}
              Hissued) as (url & _ & Hlive & _).
  exists url. exact Hlive.
Defined.

(** X23. ImagePreview leaks no object URL: once it is unmounted, after any
    number of file changes, the live URLs are exactly those that were live
    before it was mounted; it has revoked each URL it created and no other. *)
Theorem unmounting_leaves_no_url_behind :
  forall (file : File) (changes : list File)
         (store : ImagePreview.URLStore),
    issued store ->
    ImagePreview.live
      (ImagePreview.unmount (ImagePreview.shown file changes store))
    = ImagePreview.live store.
Proof.
  intros file changes store Hissued.
  destruct (showing_shown (ImagePreview.live store) file changes store
              eq_refl Hissued) as (url & _ & Hclean & Hlive & Hold & _).
  unfold ImagePreview.unmount, ImagePreview.runCleanup. rewrite Hclean.
  exact (revoke_newest (ImagePreview.live store) url (last changes file)
           _ Hlive Hold).
Qed.

Lemma unmounting_leaves_no_url_behind_witness :
  issued {| ImagePreview.nextURL := 3%N;
            ImagePreview.live := [(2%N, manual)] |} /\
  ImagePreview.live
    (ImagePreview.unmount
       (ImagePreview.shown labelPhoto [labelPhoto]
          {| ImagePreview.nextURL := 3%N;
             ImagePreview.live := [(2%N, manual)] |}))
  = [(2%N, manual)].
Proof.
  assert (Hissued : issued {| ImagePreview.nextURL := 3%N;
                              ImagePreview.live := [(2%N, manual)] |}).
  { repeat constructor. }
  split; [exact Hissued | ].
  exact (unmounting_leaves_no_url_behind labelPhoto [labelPhoto]
           {| ImagePreview.nextURL := 3%N;
              ImagePreview.live := [(2%N, manual)] |} Hissued).
Defined.
